(** * llm-structure: the schema translator and the [structure] command

    A shallow embedding of [llm_structure.py].  The file has two parts in the
    source and two here:

    - [parse_schema_to_pydantic_model], which turns the value that
      [yaml.safe_load] produced into the arguments of a [create_model] call
      and returns what that call returns ([create_model] is pydantic's and
      is a parameter here);
    - the [structure] command, a straight line of external calls (file,
      model registry, completion client) wrapped in one [try]/[except].

    Python values are modelled as a tree ([pyval]); a [dict] is the list of
    its entries in insertion order; exceptions are values of type [exn]
    threaded through a small state-and-error monad whose state holds the
    trace of external effects and the counter of class objects created. *)

From Stdlib Require Import List String Ascii ZArith Bool Lia PeanoNat.
Import ListNotations.
Local Open Scope string_scope.
Local Open Scope list_scope.

Set Implicit Arguments.
Set Warnings "-register-all".

(** ** Python values *)

(** A Python [float]: a dyadic rational [m * 2^e], an infinity or a NaN. *)
Inductive pyfloat : Type :=
| FNan
| FInf (negative : bool)
| FDyadic (m e : Z).

(** What [yaml.safe_load] can hand to the translator. *)
Inductive pyval : Type :=
| PNone
| PBool (b : bool)
| PInt (z : Z)
| PFloat (f : pyfloat)
| PStr (s : string)
| PList (l : list pyval)
| PDict (d : list (pyval * pyval)).

(** [type(v).__name__], as it appears in interpreter messages. *)
Definition type_name (v : pyval) : string :=
  match v with
  | PNone => "NoneType"
  | PBool _ => "bool"
  | PInt _ => "int"
  | PFloat _ => "float"
  | PStr _ => "str"
  | PList _ => "list"
  | PDict _ => "dict"
  end.

(** [isinstance(v, dict)]. *)
Definition isinstance_dict (v : pyval) : bool :=
  match v with PDict _ => true | _ => false end.

(** Lists and dicts have no [__hash__]; every scalar has one. *)
Definition hashable (v : pyval) : bool :=
  match v with
  | PList _ | PDict _ => false
  | _ => true
  end.

(** Numeric equality of [m1 * 2^e1] and [m2 * 2^e2]. *)
Definition dyadic_eqb (m1 e1 m2 e2 : Z) : bool :=
  let e := Z.min e1 e2 in
  (m1 * 2 ^ (e1 - e) =? m2 * 2 ^ (e2 - e))%Z.

Definition float_eqb (f g : pyfloat) : bool :=
  match f, g with
  | FInf a, FInf b => Bool.eqb a b
  | FDyadic m1 e1, FDyadic m2 e2 => dyadic_eqb m1 e1 m2 e2
  | _, _ => false
  end.

Definition int_float_eqb (z : Z) (f : pyfloat) : bool :=
  match f with
  | FDyadic m e => dyadic_eqb z 0 m e
  | _ => false
  end.

(** Python's [==] on the values above: [bool], [int] and [float] compare by
    numeric value across types, strings by content, lists elementwise, dicts
    as unordered sets of entries. *)
Fixpoint py_eq (a b : pyval) {struct a} : bool :=
  match a, b with
  | PNone, PNone => true
  | PBool x, PBool y => Bool.eqb x y
  | PBool x, PInt z => (Z.b2z x =? z)%Z
  | PInt z, PBool x => (z =? Z.b2z x)%Z
  | PInt x, PInt y => (x =? y)%Z
  | PBool x, PFloat f => int_float_eqb (Z.b2z x) f
  | PFloat f, PBool x => int_float_eqb (Z.b2z x) f
  | PInt x, PFloat f => int_float_eqb x f
  | PFloat f, PInt x => int_float_eqb x f
  | PFloat f, PFloat g => float_eqb f g
  | PStr s, PStr t => String.eqb s t
  | PList l, PList m =>
      (fix elementwise (l m : list pyval) {struct l} : bool :=
         match l, m with
         | [], [] => true
         | x :: l', y :: m' => py_eq x y && elementwise l' m'
         | _, _ => false
         end) l m
  | PDict d, PDict e =>
      (List.length d =? List.length e)%nat &&
      (fix every (d : list (pyval * pyval)) {struct d} : bool :=
         match d with
         | [] => true
         | (k, v) :: d' =>
             (fix found (e : list (pyval * pyval)) : bool :=
                match e with
                | [] => false
                | (k', v') :: e' => (py_eq k k' && py_eq v v') || found e'
                end) e && every d'
         end) d
  | _, _ => false
  end.

(** [needle in hay] for two strings. *)
Fixpoint str_contains (needle hay : string) : bool :=
  String.prefix needle hay ||
  match hay with
  | EmptyString => false
  | String _ rest => str_contains needle rest
  end.

(** ** Exceptions *)

Inductive exn_kind : Type :=
| TypeError
| AttributeError
| IndexError
| BadParameter          (* click.BadParameter, a usage error *)
| Abort                 (* click.Abort *)
| External (cls : string). (* raised inside a collaborator: OSError, YAMLError, ... *)

(** An exception: its class and [str(e)].  The texts of the exceptions the
    interpreter raises are CPython's and vary between versions; no statement
    below depends on them. *)
Record exn : Type := Exn { exn_kind_of : exn_kind; exn_text : string }.

Definition no_attribute (v : pyval) (attr : string) : exn :=
  Exn AttributeError
      ("'" ++ type_name v ++ "' object has no attribute '" ++ attr ++ "'").

Definition unhashable (v : pyval) : exn :=
  Exn TypeError ("unhashable type: '" ++ type_name v ++ "'").

(** ** The semantic types and the field definitions given to [create_model] *)

(** The values of the two [type_mapping] tables, and the fallback [Any]. *)
Inductive pytype : Type :=
| Tstr | Tint | Tfloat | Tbool | TList | TDict | TAny.

(** Second component of a field definition: [...] or [None]. *)
Inductive default : Type :=
| Ellipsis      (* required, no default *)
| DefaultNone.  (* optional, defaults to None *)

Definition field_def : Type := (pytype * default)%type.

(** The class object [create_model] returns: its identity, its name and its
    fields with their definitions, in order. *)
Record ValidationModel : Type := MkModel {
  class_id : nat;
  model_name : pyval;
  model_fields : list (string * field_def)
}.

(** Two class objects describing the same model. *)
Definition structurally_equal (m1 m2 : ValidationModel) : Prop :=
  model_name m1 = model_name m2 /\ model_fields m1 = model_fields m2.

(** A field of model [m] is required when its default is [...]. *)
Definition required_field (fd : string * field_def) : bool :=
  match snd (snd fd) with Ellipsis => true | DefaultNone => false end.

(** ** Results and the command monad *)

(** A pure computation that may raise. *)
Definition result (A : Type) : Type := (exn + A)%type.

Definition bindR {A B : Type} (r : result A) (k : A -> result B) : result B :=
  match r with
  | inl e => inl e
  | inr a => k a
  end.

Notation "'let?' x ':=' r 'in' k" := (bindR r (fun x => k))
  (at level 10, x pattern, r at level 100, k at level 200).

(** The external effects of one invocation, in the order they happen. *)
Inductive event : Type :=
| EvOpen (path : string)                       (* open(schema), then yaml.safe_load *)
| EvGetModel (name : string)                   (* llm.get_model(model) *)
| EvGetClient                                  (* model_instance.get_client() *)
| EvRequest (model_id prompt : string) (response_format : ValidationModel)
                                               (* client.beta.chat.completions.parse *)
| EvPrint (line : string)                      (* print: standard output *)
| EvEcho (line : string).                      (* click.echo(err=True): standard error *)

(** The state threaded through the code: how many classes [create_model] has
    made so far, and the effects performed so far (oldest first). *)
Record world : Type := World {
  next_class : nat;
  trace : list event
}.

Definition M (A : Type) : Type := world -> result A * world.

Definition ret {A : Type} (a : A) : M A := fun w => (inr a, w).

Definition raise {A : Type} (e : exn) : M A := fun w => (inl e, w).

Definition bind {A B : Type} (m : M A) (k : A -> M B) : M B :=
  fun w =>
    match m w with
    | (inl e, w') => (inl e, w')
    | (inr a, w') => k a w'
    end.

Notation "x <- m ;; k" := (bind m (fun x => k))
  (at level 100, m at next level, right associativity).

Definition lift {A : Type} (r : result A) : M A := fun w => (r, w).

Definition emit (ev : event) : M unit :=
  fun w => (inr tt, World (next_class w) (trace w ++ [ev])).

(** [try: body except Exception as e: handler(e)]. *)
Definition try_except {A : Type} (body : M A) (handler : exn -> M A) : M A :=
  fun w =>
    match body w with
    | (inl e, w') => handler e w'
    | (inr a, w') => (inr a, w')
    end.

(** ** Operations on Python values used by the source *)

(** [len(v)]. *)
Definition len (v : pyval) : result nat :=
  match v with
  | PStr s => inr (String.length s)
  | PList l => inr (List.length l)
  | PDict d => inr (List.length d)
  | _ => inl (Exn TypeError ("object of type '" ++ type_name v ++ "' has no len()"))
  end.

(** [v.values()], [v.keys()], [v.items()]: only a dict has them. *)
Definition values (v : pyval) : result (list pyval) :=
  match v with
  | PDict d => inr (map snd d)
  | _ => inl (no_attribute v "values")
  end.

Definition keys (v : pyval) : result (list pyval) :=
  match v with
  | PDict d => inr (map fst d)
  | _ => inl (no_attribute v "keys")
  end.

Definition items (v : pyval) : result (list (pyval * pyval)) :=
  match v with
  | PDict d => inr d
  | _ => inl (no_attribute v "items")
  end.

(** [next(iter(xs))]. *)
Definition next_iter {A : Type} (xs : list A) : result A :=
  match xs with
  | x :: _ => inr x
  | [] => inl (Exn (External "StopIteration") "")
  end.

(** Lookup in a dict whose entries are [d]: the entry whose key [==] [k]. *)
Fixpoint dict_lookup {V : Type} (d : list (pyval * V)) (k : pyval) : option V :=
  match d with
  | [] => None
  | (k', v) :: d' => if py_eq k k' then Some v else dict_lookup d' k
  end.

Definition lookup_default {V : Type} (d : list (pyval * V)) (k : pyval) (dflt : V)
  : V :=
  match dict_lookup d k with Some v => v | None => dflt end.

(** [d.get(k, dflt)] on a dict: hashes [k] first. *)
Definition dict_get {V : Type} (d : list (pyval * V)) (k : pyval) (dflt : V)
  : result V :=
  if hashable k then inr (lookup_default d k dflt) else inl (unhashable k).

(** [v.get(k, dflt)] on an arbitrary value. *)
Definition get (v k dflt : pyval) : result pyval :=
  match v with
  | PDict d => dict_get d k dflt
  | _ => inl (no_attribute v "get")
  end.

(** [d[k] = v]: overwrite in place when the key is there, append otherwise. *)
Fixpoint dict_store {V : Type} (d : list (pyval * V)) (k : pyval) (v : V)
  : list (pyval * V) :=
  match d with
  | [] => [(k, v)]
  | (k', v') :: d' =>
      if py_eq k k' then (k', v) :: d' else (k', v') :: dict_store d' k v
  end.

Definition setitem {V : Type} (d : list (pyval * V)) (k : pyval) (v : V)
  : result (list (pyval * V)) :=
  if hashable k then inr (dict_store d k v) else inl (unhashable k).

(** [x in c]. *)
Definition py_in (x c : pyval) : result bool :=
  match c with
  | PList l => inr (existsb (py_eq x) l)
  | PDict d =>
      if hashable x then inr (existsb (fun kv => py_eq x (fst kv)) d)
      else inl (unhashable x)
  | PStr hay =>
      match x with
      | PStr needle => inr (str_contains needle hay)
      | _ => inl (Exn TypeError
                      ("'in <string>' requires string as left operand, not "
                       ++ type_name x))
      end
  | _ => inl (Exn TypeError
                  ("argument of type '" ++ type_name c ++ "' is not iterable"))
  end.

(** Unpacking [fields] as keyword arguments: every key must be a [str]. *)
Fixpoint keywords {V : Type} (fields : list (pyval * V))
  : result (list (string * V)) :=
  match fields with
  | [] => inr []
  | (PStr name, v) :: rest =>
      let? kw := keywords rest in inr ((name, v) :: kw)
  | _ :: _ => inl (Exn TypeError "keywords must be strings")
  end.

(** [create_model] is pydantic's, a collaborator outside the source.  It is
    handed a name and keyword arguments and either raises or builds a
    class; what the class is called and which keywords become its fields is
    pydantic's decision, so it is a parameter of the translator like the
    collaborators of the command below. *)
Record pydantic : Type := Pydantic {
  pydantic_create_model :
    pyval -> list (string * field_def) ->
    result (pyval * list (string * field_def))
}.

(** The call [create_model(name, ...)] with keyword arguments [kw]: the
    exception pydantic raises, or a fresh class object. *)
Definition create_model (P : pydantic) (name : pyval)
  (kw : list (string * field_def)) : M ValidationModel :=
  fun w =>
    match pydantic_create_model P name kw with
    | inl e => (inl e, w)
    | inr (cls_name, cls_fields) =>
        (inr (MkModel (next_class w) cls_name cls_fields),
         World (S (next_class w)) (trace w))
    end.

(** ** [parse_schema_to_pydantic_model] *)

(** The table of the first branch (source lines 14-21). *)
Definition simple_type_mapping : list (pyval * pytype) :=
  [ (PStr "str", Tstr); (PStr "int", Tint); (PStr "float", Tfloat);
    (PStr "bool", Tbool); (PStr "list", TList); (PStr "dict", TDict) ].

(** The table of the second branch (source lines 35-42). *)
Definition json_type_mapping : list (pyval * pytype) :=
  [ (PStr "string", Tstr); (PStr "integer", Tint); (PStr "number", Tfloat);
    (PStr "boolean", Tbool); (PStr "array", TList); (PStr "object", TDict) ].

(** The loop of lines 25-27, started with the [fields] built so far. *)
Fixpoint simple_loop (its : list (pyval * pyval)) (fields : list (pyval * field_def))
  : result (list (pyval * field_def)) :=
  match its with
  | [] => inr fields
  | (field_name, field_type) :: rest =>
      let? python_type := dict_get simple_type_mapping field_type TAny in
      let? fields' := setitem fields field_name (python_type, Ellipsis) in
      simple_loop rest fields'
  end.

(** The loop of lines 45-48. *)
Fixpoint json_loop (required : pyval) (its : list (pyval * pyval))
  (fields : list (pyval * field_def)) : result (list (pyval * field_def)) :=
  match its with
  | [] => inr fields
  | (field_name, field_schema) :: rest =>
      let? declared := get field_schema (PStr "type") PNone in
      let? field_type := dict_get json_type_mapping declared TAny in
      let? is_required := py_in field_name required in
      let default := if is_required then Ellipsis else DefaultNone in
      let? fields' := setitem fields field_name (field_type, default) in
      json_loop required rest fields'
  end.

(** The test of line 9; [and] does not evaluate its right operand when the
    left one is false. *)
Definition is_simple_form (schema_dict : pyval) : result bool :=
  let? n := len schema_dict in
  if (n =? 1)%nat then
    let? vs := values schema_dict in
    let? v := next_iter vs in
    inr (isinstance_dict v)
  else inr false.

Definition parse_schema_to_pydantic_model (P : pydantic) (schema_dict : pyval)
  : M ValidationModel :=
  simple <- lift (is_simple_form schema_dict) ;;
  if (simple : bool) then
    model_name <- lift (let? ks := keys schema_dict in next_iter ks) ;;
    fields_dict <- lift (let? vs := values schema_dict in next_iter vs) ;;
    fields <- lift (let? its := items fields_dict in simple_loop its []) ;;
    kw <- lift (keywords fields) ;;
    create_model P model_name kw
  else
    properties <- lift (get schema_dict (PStr "properties") (PDict [])) ;;
    required <- lift (get schema_dict (PStr "required") (PList [])) ;;
    fields <- lift (let? its := items properties in json_loop required its []) ;;
    title <- lift (get schema_dict (PStr "title") (PStr "DynamicModel")) ;;
    kw <- lift (keywords fields) ;;
    create_model P title kw.

(** ** The collaborators of the [structure] command *)

(** The completion response: the [message.content] of each choice, [None]
    when the content is absent. *)
Record response : Type := Response { choices : list (option string) }.

(** The request client: [beta.chat.completions.parse(model, messages,
    response_format)]; a message is a (role, content) pair. *)
Record client : Type := Client {
  completions_parse :
    string -> list (string * string) -> ValidationModel -> result response
}.

Record model_instance : Type := ModelInstance {
  model_id : string;
  get_client : result client
}.

(** Everything outside the process: the file system, the YAML parser and the
    model registry of the host tool.  Each may raise. *)
Record env : Type := Env {
  open_file : string -> result string;
  safe_load : string -> result pyval;
  get_model : string -> result model_instance
}.

(** ** The [structure] command *)

(** The condition of line 80. *)
Definition supports_structured_output (model_id : string) : bool :=
  (str_contains "o1" model_id || str_contains "gpt-4o" model_id)
  && negb (String.eqb model_id "gpt-4").

(** [response.choices[0].message.content]. *)
Definition first_content (r : response) : result (option string) :=
  match choices r with
  | c :: _ => inr c
  | [] => inl (Exn IndexError "list index out of range")
  end.

(** Truth value of the content: [None] and the empty string are false. *)
Definition truthy (content : option string) : bool :=
  match content with
  | Some (String _ _) => true
  | _ => false
  end.

(** What [print] writes for the content. *)
Definition content_text (content : option string) : string :=
  match content with Some s => s | None => "None" end.

(** The body of the [try] (lines 69-94). *)
Definition structure_body (P : pydantic) (E : env)
  (prompt schema model : string) : M unit :=
  _ <- emit (EvOpen schema) ;;
  text <- lift (open_file E schema) ;;
  schema_dict <- lift (safe_load E text) ;;
  DynamicModel <- parse_schema_to_pydantic_model P schema_dict ;;
  _ <- emit (EvGetModel model) ;;
  model_instance <- lift (get_model E model) ;;
  let model_id := model_id model_instance in
  if supports_structured_output model_id then
    _ <- emit EvGetClient ;;
    client <- lift (get_client model_instance) ;;
    (* line 82 computes DynamicModel.model_json_schema() and never uses it *)
    _ <- emit (EvRequest model_id prompt DynamicModel) ;;
    response <- lift (completions_parse client model_id [("user", prompt)]
                                        DynamicModel) ;;
    result <- lift (first_content response) ;;
    if truthy result then emit (EvPrint (content_text result))
    else raise (Exn BadParameter "No response from model")
  else raise (Exn BadParameter "Model does not support structured output").

(** The handler of lines 96-98. *)
Definition structure_handler (e : exn) : M unit :=
  _ <- emit (EvEcho ("Error: " ++ exn_text e)) ;;
  raise (Exn Abort "").

Definition structure (P : pydantic) (E : env) (prompt schema model : string)
  : M unit :=
  try_except (structure_body P E prompt schema model) structure_handler.

(** What reached standard output, what reached standard error, and which
    requests went to the provider. *)
Definition stdout_of (t : list event) : list string :=
  flat_map (fun ev => match ev with EvPrint s => [s] | _ => [] end) t.

Definition stderr_of (t : list event) : list string :=
  flat_map (fun ev => match ev with EvEcho s => [s] | _ => [] end) t.

Definition is_request (ev : event) : bool :=
  match ev with EvRequest _ _ _ => true | _ => false end.

Definition is_get_model (ev : event) : bool :=
  match ev with EvGetModel _ => true | _ => false end.

Definition initial : world := World 0 [].

(** ** Sample inputs *)

Module Samples.

(** Scenario A: [Person: {name: str, age: int}]. *)
Definition person : pyval :=
  PDict [ (PStr "Person",
           PDict [ (PStr "name", PStr "str"); (PStr "age", PStr "int") ]) ].

(** Scenario B. *)
Definition item : pyval :=
  PDict [ (PStr "title", PStr "Item");
          (PStr "properties",
           PDict [ (PStr "qty", PDict [ (PStr "type", PStr "integer") ]) ]);
          (PStr "required", PList []) ].

(** A JSON-Schema document that has [properties] and nothing else. *)
Definition only_properties : pyval :=
  PDict [ (PStr "properties",
           PDict [ (PStr "qty", PDict [ (PStr "type", PStr "integer") ]) ]) ].

(** The document [title: Switch], [properties: {on: {type: boolean}}],
    [required: []] as YAML 1.1 loads it: the key [on] is read as the
    boolean [True]. *)
Definition switch : pyval :=
  PDict [ (PStr "title", PStr "Switch");
          (PStr "properties",
           PDict [ (PBool true, PDict [ (PStr "type", PStr "boolean") ]) ]);
          (PStr "required", PList []) ].

(** A [create_model] that accepts every call and builds the class exactly
    as asked. *)
Definition permissive : pydantic :=
  Pydantic (fun name kw => inr (name, kw)).

Definition leading_underscore (s : string) : bool :=
  match s with
  | String c _ => Ascii.eqb c "_"
  | EmptyString => false
  end.

(** A [create_model] in the manner of pydantic: it wants a string for the
    name, refuses the keyword [model_config], and makes fields only of the
    keywords that do not start with an underscore.  It serves to exercise
    the statements below, which hold for every [create_model]. *)
Definition strict : pydantic :=
  Pydantic (fun name kw =>
    match name with
    | PStr _ =>
        if existsb (fun f => String.eqb (fst f) "model_config") kw
        then inl (Exn TypeError "model_config is not a field")
        else inr (name,
                  filter (fun f => negb (leading_underscore (fst f))) kw)
    | _ => inl (Exn TypeError "the model name must be a string")
    end).

Definition answering (content : option string) : client :=
  Client (fun _ _ _ => inr (Response [content])).

(** A world with one schema file and a registry that resolves every name
    to a model of that name. *)
Definition one_file (path : string) (doc : pyval) (content : option string)
  : env :=
  Env (fun p => if String.eqb p path then inr "<text>"
                else inl (Exn (External "FileNotFoundError")
                              ("[Errno 2] No such file or directory: '"
                               ++ p ++ "'")))
      (fun _ => inr doc)
      (fun name => inr (ModelInstance name (inr (answering content)))).

(** The same, for a model that has no [get_client]: calling it raises. *)
Definition no_client (doc : pyval) : env :=
  Env (fun _ => inr "<text>")
      (fun _ => inr doc)
      (fun name =>
         inr (ModelInstance name
                (inl (Exn AttributeError
                          "'Model' object has no attribute 'get_client'")))).

End Samples.

(** ** The shapes of schema the data model describes *)

Definition is_str (v : pyval) : bool :=
  match v with PStr _ => true | _ => false end.

(** The text of a [str] value. *)
Definition str_of (v : pyval) : string :=
  match v with PStr s => s | _ => "" end.

(** The field definitions the first branch builds from [inner]. *)
Definition simple_field (kv : pyval * pyval) : pyval * field_def :=
  (fst kv, (lookup_default simple_type_mapping (snd kv) TAny, Ellipsis)).

(** The field definitions the second branch builds from [properties], given
    the elements of the [required] list. *)
Definition json_field (req : list pyval) (kv : pyval * pyval)
  : pyval * field_def :=
  (fst kv,
   (lookup_default json_type_mapping
      (match snd kv with
       | PDict fs => lookup_default fs (PStr "type") PNone
       | _ => PNone
       end) TAny,
    if existsb (py_eq (fst kv)) req then Ellipsis else DefaultNone)).

Definition as_keyword {V : Type} (f : pyval * V) : string * V :=
  (str_of (fst f), snd f).

(** A dict whose keys are pairwise distinct strings: what a mapping with
    textual keys loads as. *)
Definition string_keyed (d : list (pyval * pyval)) : Prop :=
  forallb is_str (map fst d) = true /\ NoDup (map fst d).

(** The inner mapping of the simple form: field names are strings and every
    value can be hashed (a type-name string, or any other scalar). *)
Definition simple_fields_ok (inner : list (pyval * pyval)) : Prop :=
  string_keyed inner /\ forallb hashable (map snd inner) = true.

(** The semantic type a table gives to a declared type. *)
Definition resolve (table : list (pyval * pytype)) (declared : pyval) : pytype :=
  lookup_default table declared TAny.

(** The value under [type] in a property's schema ([None] when absent). *)
Definition declared_type (field_schema : pyval) : pyval :=
  match field_schema with
  | PDict fs => lookup_default fs (PStr "type") PNone
  | _ => PNone
  end.

(** One entry of [properties]: a mapping whose [type], if any, is a scalar. *)
Definition property_ok (field_schema : pyval) : bool :=
  isinstance_dict field_schema && hashable (declared_type field_schema).

Definition properties_ok (props : list (pyval * pyval)) : Prop :=
  string_keyed props /\ forallb property_ok (map snd props) = true.

(** The six names of each table and the vocabulary of the data model. *)
Definition simple_names : list string :=
  ["str"; "int"; "float"; "bool"; "list"; "dict"].

Definition json_names : list string :=
  ["string"; "integer"; "number"; "boolean"; "array"; "object"].

Definition vocabulary : list string := json_names ++ simple_names.


(** The support test as the text describes its allow-list part alone. *)
Definition plain_substring_test (model_id : string) : bool :=
  str_contains "o1" model_id || str_contains "gpt-4o" model_id.

(** A schema the translator accepts (in any world, see
    [parse_world_independent]). *)
Definition translates_to (P : pydantic) (doc : pyval) (name : pyval)
  (kw : list (string * field_def)) : Prop :=
  forall w, parse_schema_to_pydantic_model P doc w
            = (inr (MkModel (next_class w) name kw),
               World (S (next_class w)) (trace w)).

(** The translator gets as far as line 29 or line 50 and calls
    [create_model] with the name [name] and the keyword arguments [kw]:
    whatever pydantic does, the translation ends as that call ends. *)
Definition hands_over (doc : pyval) (name : pyval)
  (kw : list (string * field_def)) : Prop :=
  forall P w, parse_schema_to_pydantic_model P doc w = create_model P name kw w.

(** Pydantic accepts the call and builds the class as asked: named [name],
    with every keyword as a field. *)
Definition builds_as_asked (P : pydantic) (name : pyval)
  (kw : list (string * field_def)) : Prop :=
  pydantic_create_model P name kw = inr (name, kw).

(** What the second rule promises for the schema [d] with properties
    [props] and the list [req] under [required], translated in world [w]:
    a model comes back, named after [title] or [DynamicModel], with one
    field per property in order, required exactly when its name is in
    [req] and defaulting to [None] otherwise. *)
Definition json_form_result (P : pydantic) (d props : list (pyval * pyval))
  (req : list pyval) (w : world) : Prop :=
  exists m,
    parse_schema_to_pydantic_model P (PDict d) w
    = (inr m, World (S (next_class w)) (trace w))
    /\ model_name m = lookup_default d (PStr "title") (PStr "DynamicModel")
    /\ map (fun f => PStr (fst f)) (model_fields m) = map fst props
    /\ (forall f, In f (model_fields m) ->
          (snd (snd f) = Ellipsis <-> In (PStr (fst f)) req)
          /\ (snd (snd f) = DefaultNone <-> ~ In (PStr (fst f)) req)).

(** ** The command as it is registered *)

(** The option [-m/--model] of line 59-61 has the default [gpt-4]; [prompt]
    and [--schema] are required, so click hands the function two strings
    and the model given or the default. *)
Definition structure_command (P : pydantic) (E : env) (prompt schema : string)
  (model : option string) : M unit :=
  structure P E prompt schema
            (match model with Some m => m | None => "gpt-4" end).

Definition is_open (ev : event) : bool :=
  match ev with EvOpen _ => true | _ => false end.

Definition is_get_client (ev : event) : bool :=
  match ev with EvGetClient => true | _ => false end.

(** ** One model written in both forms *)

(** The name the second table uses for a name of the first. *)
Definition json_name_of (t : string) : string :=
  if String.eqb t "str" then "string"
  else if String.eqb t "int" then "integer"
  else if String.eqb t "float" then "number"
  else if String.eqb t "bool" then "boolean"
  else if String.eqb t "list" then "array"
  else if String.eqb t "dict" then "object"
  else t.

(** [{name: {f1: t1, ...}}]. *)
Definition simple_schema_of (name : string) (fs : list (string * string))
  : pyval :=
  PDict [(PStr name, PDict (map (fun f => (PStr (fst f), PStr (snd f))) fs))].

(** The same fields as a JSON-Schema document: a [title], one property per
    field with the corresponding [type], every field listed in [required]. *)
Definition json_schema_of (name : string) (fs : list (string * string))
  : pyval :=
  PDict [ (PStr "title", PStr name);
          (PStr "properties",
           PDict (map (fun f => (PStr (fst f),
                                 PDict [(PStr "type", PStr (json_name_of (snd f)))]))
                      fs));
          (PStr "required", PList (map (fun f => PStr (fst f)) fs)) ].

(** The field definitions of the second branch when membership in
    [required] is decided by [mem]. *)
Definition json_field_by (mem : pyval -> bool) (kv : pyval * pyval)
  : pyval * field_def :=
  (fst kv,
   (lookup_default json_type_mapping (declared_type (snd kv)) TAny,
    if mem (fst kv) then Ellipsis else DefaultNone)).

Unset Implicit Arguments.

(** ** Basic facts *)

Lemma py_eq_str_l (s : string) (v : pyval) :
  py_eq (PStr s) v = true <-> v = PStr s.
Proof.
  destruct v; simpl; try (split; [discriminate | discriminate]).
  rewrite String.eqb_eq. split; [intros -> | intros [= ->]]; reflexivity.
Qed.

Lemma py_eq_str_neq (s : string) (v : pyval) :
  v <> PStr s -> py_eq (PStr s) v = false.
Proof.
  intros H. destruct (py_eq (PStr s) v) eqn:E; [|reflexivity].
  apply py_eq_str_l in E. contradiction.
Qed.

Lemma is_str_inv (v : pyval) : is_str v = true -> exists s, v = PStr s.
Proof. destruct v; simpl; try discriminate. eauto. Qed.

(** Storing under a string that is not yet a key appends the entry. *)
Lemma dict_store_fresh {V : Type} (d : list (pyval * V)) (s : string) (v : V) :
  ~ In (PStr s) (map fst d) -> dict_store d (PStr s) v = d ++ [(PStr s, v)].
Proof.
  induction d as [|[k' v'] d IH]; cbn [dict_store map fst In app];
    intros Hnin; [reflexivity|].
  rewrite py_eq_str_neq by (intros ->; apply Hnin; now left).
  rewrite IH by tauto. reflexivity.
Qed.

Lemma existsb_py_eq_str (s : string) (l : list pyval) :
  existsb (py_eq (PStr s)) l = true <-> In (PStr s) l.
Proof.
  rewrite existsb_exists. split.
  - intros [x [Hin Heq]]. apply py_eq_str_l in Heq. now subst.
  - intros Hin. exists (PStr s). split; [assumption|]. now apply py_eq_str_l.
Qed.

(** ** The two loops and the keyword unpacking *)

Section Loops.

Variable V : Type.

Lemma keywords_of_strings (fields : list (pyval * V)) :
  forallb is_str (map fst fields) = true ->
  keywords fields = inr (map (@as_keyword V) fields).
Proof.
  induction fields as [|[k v] fields IH]; simpl; intros H; [reflexivity|].
  apply andb_true_iff in H as [Hk Hrest].
  apply is_str_inv in Hk as [s ->].
  rewrite (IH Hrest). reflexivity.
Qed.

Lemma keywords_non_string (fields : list (pyval * V)) :
  forallb is_str (map fst fields) = false ->
  exists text, keywords fields = inl (Exn TypeError text).
Proof.
  induction fields as [|[k v] fields IH]; simpl; intros H; [discriminate|].
  apply andb_false_iff in H as [Hk | Hrest].
  - destruct k; simpl in Hk; try discriminate; eauto.
  - destruct (IH Hrest) as [text ->].
    destruct k; simpl; eauto.
Qed.

End Loops.

Lemma nodup_app_head (A : Type) (acc rest : list A) (x : A) :
  NoDup (acc ++ x :: rest) -> ~ In x acc /\ NoDup ((acc ++ [x]) ++ rest).
Proof.
  intros H. split.
  - apply NoDup_remove_2 in H. intros Hin. apply H. apply in_or_app. now left.
  - rewrite <- app_assoc. exact H.
Qed.

Lemma simple_loop_spec (its : list (pyval * pyval)) :
  forall acc : list (pyval * field_def),
    forallb is_str (map fst its) = true ->
    forallb hashable (map snd its) = true ->
    NoDup (map fst acc ++ map fst its) ->
    simple_loop its acc = inr (acc ++ map simple_field its).
Proof.
  induction its as [|[k t] its IH]; intros acc Hstr Hhash Hnd.
  - simpl. now rewrite app_nil_r.
  - cbn [map fst snd forallb] in Hstr, Hhash, Hnd.
    apply andb_true_iff in Hstr as [Hk Hstr].
    apply andb_true_iff in Hhash as [Ht Hhash].
    apply is_str_inv in Hk as [s ->].
    apply nodup_app_head in Hnd as [Hfresh Hnd].
    cbn [simple_loop]. unfold dict_get, setitem. rewrite Ht. cbn [bindR hashable].
    rewrite dict_store_fresh by exact Hfresh.
    rewrite IH; try assumption.
    + cbn [map]. rewrite <- app_assoc. reflexivity.
    + rewrite map_app. exact Hnd.
Qed.

Lemma json_loop_spec (req : list pyval) (its : list (pyval * pyval)) :
  forall acc : list (pyval * field_def),
    forallb is_str (map fst its) = true ->
    forallb property_ok (map snd its) = true ->
    NoDup (map fst acc ++ map fst its) ->
    json_loop (PList req) its acc = inr (acc ++ map (json_field req) its).
Proof.
  induction its as [|[k fsch] its IH]; intros acc Hstr Hok Hnd.
  - simpl. now rewrite app_nil_r.
  - cbn [map fst snd forallb] in Hstr, Hok, Hnd.
    apply andb_true_iff in Hstr as [Hk Hstr].
    apply andb_true_iff in Hok as [Hf Hok].
    apply is_str_inv in Hk as [s ->].
    apply nodup_app_head in Hnd as [Hfresh Hnd].
    unfold property_ok in Hf. apply andb_true_iff in Hf as [Hdict Hty].
    destruct fsch as [| | | | | |fs]; try discriminate Hdict.
    cbn [declared_type] in Hty.
    cbn [json_loop get]. unfold dict_get at 1. cbn [hashable bindR].
    unfold dict_get, setitem. rewrite Hty. cbn [bindR py_in hashable].
    rewrite dict_store_fresh by exact Hfresh.
    rewrite IH; try assumption.
    + cbn [map]. rewrite <- app_assoc. reflexivity.
    + rewrite map_app. exact Hnd.
Qed.

(** ** The two branches of the translator *)

Lemma is_simple_form_single (name : pyval) (inner : list (pyval * pyval)) :
  is_simple_form (PDict [(name, PDict inner)]) = inr true.
Proof. reflexivity. Qed.

Lemma simple_branch_ok (name : pyval) (inner : list (pyval * pyval)) :
  simple_fields_ok inner ->
  hands_over (PDict [(name, PDict inner)]) name
             (map (fun kv => as_keyword (simple_field kv)) inner).
Proof.
  intros [[Hstr Hnd] Hhash] P w.
  unfold parse_schema_to_pydantic_model, bind, lift.
  rewrite is_simple_form_single. cbn [keys values items next_iter map fst snd bindR].
  rewrite simple_loop_spec by assumption. cbn [app].
  rewrite keywords_of_strings.
  - now rewrite map_map.
  - rewrite map_map. cbn [simple_field fst]. exact Hstr.
Qed.

Lemma json_branch_ok (d props : list (pyval * pyval)) (req : list pyval) :
  is_simple_form (PDict d) = inr false ->
  lookup_default d (PStr "properties") (PDict []) = PDict props ->
  lookup_default d (PStr "required") (PList []) = PList req ->
  properties_ok props ->
  hands_over (PDict d)
             (lookup_default d (PStr "title") (PStr "DynamicModel"))
             (map (fun kv => as_keyword (json_field req kv)) props).
Proof.
  intros Hform Hprops Hreq [[Hstr Hnd] Hok] P w.
  unfold parse_schema_to_pydantic_model, bind, lift.
  rewrite Hform. cbn [get]. unfold dict_get. cbn [hashable].
  rewrite Hprops, Hreq. cbn [items bindR].
  rewrite json_loop_spec by assumption. cbn [app].
  rewrite keywords_of_strings.
  - now rewrite map_map.
  - rewrite map_map. cbn [json_field fst]. exact Hstr.
Qed.

(** The translator reads nothing from the world but the class counter: on a
    given schema it either raises the same exception everywhere and leaves
    the world alone, or returns a fresh class of one fixed shape. *)
Lemma parse_world_independent (P : pydantic) (schema : pyval) :
  (exists e, forall w, parse_schema_to_pydantic_model P schema w = (inl e, w))
  \/ (exists name kw, translates_to P schema name kw).
Proof.
  unfold translates_to, parse_schema_to_pydantic_model, bind, lift, create_model.
  destruct (is_simple_form schema) as [e|[|]];
    repeat match goal with
      | |- context [match ?r with inl _ => _ | inr _ => _ end] =>
          destruct r as [?e|?a]
      | |- context [let (_, _) := ?p in _] => destruct p
      end;
    solve [ left; eexists; intros w; reflexivity
          | right; do 2 eexists; intros w; reflexivity ].
Qed.

(** A translation that reaches [create_model] ends as the call ends. *)
Lemma hands_over_builds (P : pydantic) (doc name name' : pyval)
  (kw kw' : list (string * field_def)) :
  hands_over doc name kw ->
  pydantic_create_model P name kw = inr (name', kw') ->
  translates_to P doc name' kw'.
Proof.
  intros Hcall Hbuild w. rewrite (Hcall P w). unfold create_model.
  now rewrite Hbuild.
Qed.

Lemma hands_over_raises (P : pydantic) (doc name : pyval)
  (kw : list (string * field_def)) (e : exn) :
  hands_over doc name kw ->
  pydantic_create_model P name kw = inl e ->
  forall w, parse_schema_to_pydantic_model P doc w = (inl e, w).
Proof.
  intros Hcall Hraise w. rewrite (Hcall P w). unfold create_model.
  now rewrite Hraise.
Qed.

(** The call a translation makes is determined by the schema. *)
Lemma hands_over_unique (doc name1 name2 : pyval)
  (kw1 kw2 : list (string * field_def)) :
  hands_over doc name1 kw1 -> hands_over doc name2 kw2 ->
  name1 = name2 /\ kw1 = kw2.
Proof.
  intros H1 H2.
  pose proof (H1 Samples.permissive initial) as E1.
  rewrite (H2 Samples.permissive initial) in E1.
  unfold create_model in E1. cbn in E1.
  injection E1 as -> ->. split; reflexivity.
Qed.

Lemma translates_to_unique (P : pydantic) (doc name1 name2 : pyval)
  (kw1 kw2 : list (string * field_def)) :
  translates_to P doc name1 kw1 -> translates_to P doc name2 kw2 ->
  name1 = name2 /\ kw1 = kw2.
Proof.
  intros H1 H2. specialize (H1 initial). rewrite (H2 initial) in H1.
  injection H1 as -> ->. split; reflexivity.
Qed.

Ltac split_eqb s :=
  repeat match goal with
    | |- context [String.eqb s ?c] =>
        destruct (String.eqb_spec s c); [subst s|]
    end.

Lemma resolve_simple_names (s : string) :
  resolve simple_type_mapping (PStr s) <> TAny <-> In s simple_names.
Proof.
  unfold resolve, lookup_default, simple_names. simpl.
  split_eqb s; simpl; split; intros H; try discriminate; try tauto;
    try (exfalso; apply H; reflexivity);
    repeat (destruct H as [H|H]; [congruence|]); contradiction.
Qed.

Lemma resolve_json_names (s : string) :
  resolve json_type_mapping (PStr s) <> TAny <-> In s json_names.
Proof.
  unfold resolve, lookup_default, json_names. simpl.
  split_eqb s; simpl; split; intros H; try discriminate; try tauto;
    try (exfalso; apply H; reflexivity);
    repeat (destruct H as [H|H]; [congruence|]); contradiction.
Qed.

Lemma pytype_eq_dec (a b : pytype) : {a = b} + {a <> b}.
Proof. decide equality. Qed.

Lemma resolve_outside_simple (s : string) :
  ~ In s simple_names -> resolve simple_type_mapping (PStr s) = TAny.
Proof.
  intros H. destruct (pytype_eq_dec (resolve simple_type_mapping (PStr s)) TAny)
    as [E|E]; [exact E|].
  apply resolve_simple_names in E. contradiction.
Qed.

Lemma resolve_outside_json (s : string) :
  ~ In s json_names -> resolve json_type_mapping (PStr s) = TAny.
Proof.
  intros H. destruct (pytype_eq_dec (resolve json_type_mapping (PStr s)) TAny)
    as [E|E]; [exact E|].
  apply resolve_json_names in E. contradiction.
Qed.

Lemma string_keyed_in (d : list (pyval * pyval)) (k v : pyval) :
  string_keyed d -> In (k, v) d -> exists s, k = PStr s.
Proof.
  intros [Hstr _] Hin. apply is_str_inv.
  rewrite forallb_forall in Hstr. apply Hstr.
  apply in_map_iff. exists (k, v). split; [reflexivity | assumption].
Qed.

(** ** The translator: claims *)





(** The same branch on a field name that is not a string ([1: str] in
    YAML): the loop completes and the keyword unpacking of the call on
    line 29 raises, whatever [create_model] would do. *)
Example simple_form_non_string_field_name :
  exists text,
    parse_schema_to_pydantic_model Samples.permissive
      (PDict [(PStr "Person", PDict [(PInt 1, PStr "str")])]) initial
    = (inl (Exn TypeError text), initial).
Proof. eexists. reflexivity. Qed.

(** What the model becomes is pydantic's decision: with a [create_model]
    that wants a string name and drops underscore names, a numeric outer
    key is refused and a field [_id] does not become a field. *)
Example create_model_decides :
  (exists text,
     parse_schema_to_pydantic_model Samples.strict
       (PDict [(PInt 1, PDict [(PStr "a", PStr "str")])]) initial
     = (inl (Exn TypeError text), initial))
  /\ parse_schema_to_pydantic_model Samples.strict
       (PDict [(PStr "User",
                PDict [(PStr "_id", PStr "str"); (PStr "name", PStr "str")])])
       initial
     = (inr (MkModel 0 (PStr "User") [("name", (Tstr, Ellipsis))]),
        World 1 []).
Proof. split; [eexists; reflexivity | reflexivity]. Qed.

(** Scenario A: [Person] with required fields [name: str], [age: int]. *)
Example scenario_A :
  parse_schema_to_pydantic_model Samples.strict Samples.person initial
  = (inr (MkModel 0 (PStr "Person")
            [("name", (Tstr, Ellipsis)); ("age", (Tint, Ellipsis))]),
     World 1 []).
Proof. reflexivity. Qed.

(** Scenario B: [Item] with one optional integer field [qty]. *)
Example scenario_B :
  parse_schema_to_pydantic_model Samples.strict Samples.item initial
  = (inr (MkModel 0 (PStr "Item") [("qty", (Tint, DefaultNone))]),
     World 1 []).
Proof. reflexivity. Qed.

(** C2, as the code has it.  A mapping that does not match the simple
    form, whose [properties] (if present) is a mapping from strings to
    property mappings and whose [required] (if present) is a sequence,
    makes the translator call [create_model] with [title] as the name
    ([DynamicModel] when the key is absent) and one field definition per
    property, in order: required exactly when the name occurs in
    [required], optional with default [None] otherwise.  The model is the
    one pydantic builds from that call. *)
Theorem json_form_translation (d props : list (pyval * pyval))
  (req : list pyval) :
  is_simple_form (PDict d) = inr false ->
  lookup_default d (PStr "properties") (PDict []) = PDict props ->
  lookup_default d (PStr "required") (PList []) = PList req ->
  properties_ok props ->
  exists name kw,
    hands_over (PDict d) name kw
    /\ (forall t, dict_lookup d (PStr "title") = Some t -> name = t)
    /\ (dict_lookup d (PStr "title") = None -> name = PStr "DynamicModel")
    /\ map (fun f => PStr (fst f)) kw = map fst props
    /\ map (fun f => fst (snd f)) kw
       = map (fun kv => resolve json_type_mapping (declared_type (snd kv))) props
    /\ (forall f, In f kw ->
          (snd (snd f) = Ellipsis <-> In (PStr (fst f)) req)
          /\ (snd (snd f) = DefaultNone <-> ~ In (PStr (fst f)) req))
    /\ (forall P w, builds_as_asked P name kw -> json_form_result P d props req w).
Proof.
  intros Hform Hprops Hreq Hok.
  pose proof (json_branch_ok d props req Hform Hprops Hreq Hok) as Hcall.
  set (name := lookup_default d (PStr "title") (PStr "DynamicModel")) in *.
  set (kw := map (fun kv => as_keyword (json_field req kv)) props) in *.
  assert (Hnames : map (fun f => PStr (fst f)) kw = map fst props).
  { unfold kw. rewrite map_map. cbn [as_keyword json_field fst snd].
    apply map_ext_in. intros [k v] Hin. cbn [fst].
    destruct (@string_keyed_in props k v (proj1 Hok) Hin) as [s ->]. reflexivity. }
  assert (Hflags : forall f, In f kw ->
             (snd (snd f) = Ellipsis <-> In (PStr (fst f)) req)
             /\ (snd (snd f) = DefaultNone <-> ~ In (PStr (fst f)) req)).
  { intros f Hf. apply in_map_iff in Hf as [[k v] [<- Hin]].
    destruct (@string_keyed_in props k v (proj1 Hok) Hin) as [s ->].
    cbn [as_keyword json_field fst snd str_of].
    pose proof (existsb_py_eq_str s req) as Hmem.
    destruct (existsb (py_eq (PStr s)) req).
    + split; split; intros H; try reflexivity; try discriminate.
      * now apply Hmem.
      * exfalso. apply H. now apply Hmem.
    + split; split; intros H; try reflexivity; try discriminate.
      * apply Hmem in H. discriminate.
      * intros Hin'. apply Hmem in Hin'. discriminate. }
  exists name, kw.
  split; [exact Hcall|].
  split; [unfold name, lookup_default; now intros t ->|].
  split; [unfold name, lookup_default; now intros ->|].
  split; [exact Hnames|].
  split.
  { unfold kw. rewrite map_map. cbn [as_keyword json_field fst snd].
    apply map_ext. intros [k [| | | | | |fs]]; reflexivity. }
  split; [exact Hflags|].
  intros P w Hbuild. exists (MkModel (next_class w) name kw).
  split; [apply (hands_over_builds P _ name name kw kw Hcall Hbuild)|].
  cbn [model_name model_fields].
  split; [reflexivity|]. split; [exact Hnames | exact Hflags].
Qed.

Lemma json_form_translation_witness :
  json_form_result Samples.strict
    [ (PStr "title", PStr "Item");
      (PStr "properties",
       PDict [ (PStr "qty", PDict [ (PStr "type", PStr "integer") ]) ]);
      (PStr "required", PList []) ]
    [ (PStr "qty", PDict [ (PStr "type", PStr "integer") ]) ]
    [] initial.
Proof.
  destruct (json_form_translation
              [ (PStr "title", PStr "Item");
                (PStr "properties",
                 PDict [ (PStr "qty", PDict [ (PStr "type", PStr "integer") ]) ]);
                (PStr "required", PList []) ]
              [ (PStr "qty", PDict [ (PStr "type", PStr "integer") ]) ]
              []) as [name [kw [Hcall [Htitle [_ [_ [_ [_ Hres]]]]]]]].
  - reflexivity.
  - reflexivity.
  - reflexivity.
  - repeat split; try reflexivity. repeat constructor. simpl. tauto.
  - apply Hres. unfold builds_as_asked.
    pose proof (Hcall Samples.permissive initial) as Hrun.
    vm_compute in Hrun. injection Hrun as <- <-. reflexivity.
Defined.

(** C2 as stated fails on a document with a property called [on]: YAML
    reads that key as [True], the document does not match the simple form,
    the loop of lines 45-48 completes, and the keyword unpacking on line 50
    raises [TypeError] before [create_model] is reached; no model results,
    however obliging pydantic is. *)
Lemma json_form_counterexample :
  is_simple_form Samples.switch = inr false
  /\ (exists text,
        parse_schema_to_pydantic_model Samples.permissive Samples.switch initial
        = (inl (Exn TypeError text), initial))
  /\ ~ json_form_result Samples.permissive
         [ (PStr "title", PStr "Switch");
           (PStr "properties",
            PDict [ (PBool true, PDict [ (PStr "type", PStr "boolean") ]) ]);
           (PStr "required", PList []) ]
         [ (PBool true, PDict [ (PStr "type", PStr "boolean") ]) ]
         [] initial.
Proof.
  split; [reflexivity|]. split; [eexists; reflexivity|].
  intros [m [H _]]. discriminate H.
Qed.


(** C3.  A type name outside the vocabulary raises nothing in either
    branch.  Both tables answer [Any] for it; a simple-form schema, or a
    JSON-Schema-form schema, carrying a field with such a type name gets
    through both loops to the [create_model] call, where the field is
    typed [Any]; so the translation succeeds, with that field typed [Any],
    whenever pydantic builds the model as asked. *)
Theorem unknown_type_name_is_any (s : string) :
  ~ In s vocabulary ->
  dict_get simple_type_mapping (PStr s) TAny = inr TAny
  /\ dict_get json_type_mapping (PStr s) TAny = inr TAny
  /\ (forall name inner f,
        simple_fields_ok inner -> In (PStr f, PStr s) inner ->
        exists kw,
          hands_over (PDict [(name, PDict inner)]) name kw
          /\ In (f, (TAny, Ellipsis)) kw
          /\ (forall P w, builds_as_asked P name kw ->
                exists m,
                  parse_schema_to_pydantic_model P
                    (PDict [(name, PDict inner)]) w
                  = (inr m, World (S (next_class w)) (trace w))
                  /\ In (f, (TAny, Ellipsis)) (model_fields m)))
  /\ (forall d props req fs f,
        is_simple_form (PDict d) = inr false ->
        lookup_default d (PStr "properties") (PDict []) = PDict props ->
        lookup_default d (PStr "required") (PList []) = PList req ->
        properties_ok props ->
        In (PStr f, PDict fs) props ->
        dict_lookup fs (PStr "type") = Some (PStr s) ->
        exists name kw dflt,
          hands_over (PDict d) name kw
          /\ In (f, (TAny, dflt)) kw
          /\ (forall P w, builds_as_asked P name kw ->
                exists m,
                  parse_schema_to_pydantic_model P (PDict d) w
                  = (inr m, World (S (next_class w)) (trace w))
                  /\ In (f, (TAny, dflt)) (model_fields m))).
Proof.
  intros Hout.
  assert (Hs : resolve simple_type_mapping (PStr s) = TAny).
  { apply resolve_outside_simple. intros H. apply Hout.
    unfold vocabulary. apply in_or_app. now right. }
  assert (Hj : resolve json_type_mapping (PStr s) = TAny).
  { apply resolve_outside_json. intros H. apply Hout.
    unfold vocabulary. apply in_or_app. now left. }
  unfold resolve in Hs, Hj.
  split; [unfold dict_get; cbn [hashable]; now rewrite Hs|].
  split; [unfold dict_get; cbn [hashable]; now rewrite Hj|].
  split.
  - intros name inner f Hok Hin.
    pose proof (simple_branch_ok name inner Hok) as Hcall.
    set (kw := map (fun kv => as_keyword (simple_field kv)) inner) in *.
    assert (Hfield : In (f, (TAny, Ellipsis)) kw).
    { apply in_map_iff. exists (PStr f, PStr s).
      split; [|exact Hin]. unfold as_keyword, simple_field. cbn [fst snd str_of].
      now rewrite Hs. }
    exists kw. split; [exact Hcall|]. split; [exact Hfield|].
    intros P w Hbuild. exists (MkModel (next_class w) name kw).
    split; [apply (hands_over_builds P _ name name kw kw Hcall Hbuild)|].
    exact Hfield.
  - intros d props req fs f Hform Hprops Hreq Hok Hin Hty.
    pose proof (json_branch_ok d props req Hform Hprops Hreq Hok) as Hcall.
    set (name := lookup_default d (PStr "title") (PStr "DynamicModel")) in *.
    set (kw := map (fun kv => as_keyword (json_field req kv)) props) in *.
    set (dflt := if existsb (py_eq (PStr f)) req then Ellipsis else DefaultNone).
    assert (Hfield : In (f, (TAny, dflt)) kw).
    { apply in_map_iff. exists (PStr f, PDict fs).
      split; [|exact Hin]. unfold as_keyword, json_field. cbn [fst snd str_of].
      unfold lookup_default at 2. rewrite Hty. rewrite Hj. reflexivity. }
    exists name, kw, dflt. split; [exact Hcall|]. split; [exact Hfield|].
    intros P w Hbuild. exists (MkModel (next_class w) name kw).
    split; [apply (hands_over_builds P _ name name kw kw Hcall Hbuild)|].
    exact Hfield.
Qed.


Lemma unknown_type_name_is_any_witness :
  exists m,
    parse_schema_to_pydantic_model Samples.strict
      (PDict [(PStr "Doc", PDict [(PStr "body", PStr "custom")])]) initial
    = (inr m, World 1 [])
    /\ In ("body", (TAny, Ellipsis)) (model_fields m).
Proof.
  destruct (unknown_type_name_is_any "custom") as [_ [_ [Hsimple _]]].
  - unfold vocabulary, json_names, simple_names. simpl.
    intuition discriminate.
  - destruct (Hsimple (PStr "Doc") [(PStr "body", PStr "custom")] "body")
      as [kw [Hcall [_ Hres]]].
    + repeat split; try reflexivity. repeat constructor. simpl. tauto.
    + simpl. tauto.
    + apply (Hres Samples.strict initial). unfold builds_as_asked.
      pose proof (Hcall Samples.permissive initial) as Hrun.
      vm_compute in Hrun. injection Hrun as <-. reflexivity.
Defined.


(** C8.  Translating the same schema twice in a row gives two distinct class
    objects that are structurally equal (same name, same fields in the same
    order with the same types and required flags); a schema that is
    rejected is rejected both times with the same exception. *)
Theorem translation_idempotent (P : pydantic) (schema : pyval) (w : world) :
  match parse_schema_to_pydantic_model P schema w with
  | (inr m1, w1) =>
      exists m2 w2,
        parse_schema_to_pydantic_model P schema w1 = (inr m2, w2)
        /\ structurally_equal m1 m2
        /\ class_id m1 <> class_id m2
  | (inl e, w1) =>
      parse_schema_to_pydantic_model P schema w1 = (inl e, w1)
  end.
Proof.
  destruct (parse_world_independent P schema) as [[e He] | [name [kw Hok]]].
  - rewrite He. apply He.
  - rewrite (Hok w). do 2 eexists. split; [apply Hok|].
    cbn [next_class class_id]. split; [split; reflexivity|].
    apply Nat.neq_succ_diag_r.
Qed.


(** C9.  Each branch resolves type names with its own table.  In a
    simple-form schema a field reaches [create_model] with a concrete type
    exactly when its type name is one of [str], [int], [float], [bool],
    [list], [dict], so a name of the other table such as [string] gives
    [Any]; in a JSON-Schema-form schema exactly when it is one of
    [string], [integer], [number], [boolean], [array], [object], so [str]
    or [int] gives [Any].  The two sets of names are disjoint. *)
Theorem branch_vocabularies_disjoint :
  (forall name inner f s,
     simple_fields_ok inner -> In (PStr f, PStr s) inner ->
     exists kw ty,
       hands_over (PDict [(name, PDict inner)]) name kw
       /\ In (f, (ty, Ellipsis)) kw
       /\ (forall ty' dflt, In (f, (ty', dflt)) kw -> ty' = ty)
       /\ (ty <> TAny <-> In s simple_names)
       /\ (In s json_names -> ty = TAny))
  /\ (forall d props req fs f s,
        is_simple_form (PDict d) = inr false ->
        lookup_default d (PStr "properties") (PDict []) = PDict props ->
        lookup_default d (PStr "required") (PList []) = PList req ->
        properties_ok props ->
        In (PStr f, PDict fs) props ->
        dict_lookup fs (PStr "type") = Some (PStr s) ->
        exists name kw ty dflt,
          hands_over (PDict d) name kw
          /\ In (f, (ty, dflt)) kw
          /\ (forall ty' dflt', In (f, (ty', dflt')) kw -> ty' = ty)
          /\ (ty <> TAny <-> In s json_names)
          /\ (In s simple_names -> ty = TAny))
  /\ (forall s, In s simple_names -> ~ In s json_names).
Proof.
  assert (Hdisj : forall s, In s simple_names -> ~ In s json_names).
  { intros s H1 H2. unfold json_names, simple_names in *. simpl in *.
    intuition (subst; discriminate). }
  assert (Honly : forall (props : list (pyval * pyval)) (f : string)
                         (v v' : pyval),
             NoDup (map fst props) ->
             In (PStr f, v) props -> In (PStr f, v') props -> v = v').
  { induction props as [|[k x] props IH]; intros f v v' Hnd H1 H2;
      [contradiction|].
    cbn [map fst] in Hnd. inversion Hnd as [|? ? Hnin Hnd']; subst.
    destruct H1 as [E1 | H1]; destruct H2 as [E2 | H2].
    - congruence.
    - exfalso. apply Hnin. apply in_map_iff. exists (PStr f, v').
      split; [cbn [fst]; congruence | exact H2].
    - exfalso. apply Hnin. apply in_map_iff. exists (PStr f, v).
      split; [cbn [fst]; congruence | exact H1].
    - eapply IH; eassumption. }
  split; [|split; [|exact Hdisj]].
  - intros name inner f s Hok Hin.
    pose proof (simple_branch_ok name inner Hok) as Hcall.
    set (kw := map (fun kv => as_keyword (simple_field kv)) inner) in *.
    exists kw, (resolve simple_type_mapping (PStr s)).
    split; [exact Hcall|]. split; [|split; [|split]].
    + apply in_map_iff. exists (PStr f, PStr s). split; [reflexivity | exact Hin].
    + intros ty' dflt Hin'. apply in_map_iff in Hin' as [[k v] [Heq Hkv]].
      destruct (@string_keyed_in inner k v (proj1 Hok) Hkv) as [g ->].
      unfold as_keyword, simple_field in Heq. cbn [fst snd str_of] in Heq.
      injection Heq as -> <- _.
      now rewrite (Honly inner f v (PStr s) (proj2 (proj1 Hok)) Hkv Hin).
    + apply resolve_simple_names.
    + intros Hj. apply resolve_outside_simple. intros Hs.
      exact (Hdisj s Hs Hj).
  - intros d props req fs f s Hform Hprops Hreq Hok Hin Hty.
    pose proof (json_branch_ok d props req Hform Hprops Hreq Hok) as Hcall.
    set (name := lookup_default d (PStr "title") (PStr "DynamicModel")) in *.
    set (kw := map (fun kv => as_keyword (json_field req kv)) props) in *.
    exists name, kw, (resolve json_type_mapping (PStr s)),
      (if existsb (py_eq (PStr f)) req then Ellipsis else DefaultNone).
    split; [exact Hcall|]. split; [|split; [|split]].
    + apply in_map_iff. exists (PStr f, PDict fs). split; [|exact Hin].
      unfold as_keyword, json_field. cbn [fst snd str_of].
      unfold lookup_default at 2. now rewrite Hty.
    + intros ty' dflt' Hin'. apply in_map_iff in Hin' as [[k v] [Heq Hkv]].
      destruct (@string_keyed_in props k v (proj1 Hok) Hkv) as [g ->].
      unfold as_keyword, json_field in Heq. cbn [fst snd str_of] in Heq.
      injection Heq as -> <- _.
      rewrite (Honly props f v (PDict fs) (proj2 (proj1 Hok)) Hkv Hin).
      unfold lookup_default at 2. now rewrite Hty.
    + apply resolve_json_names.
    + intros Hs. apply resolve_outside_json. intros Hj.
      exact (Hdisj s Hs Hj).
Qed.


Lemma branch_vocabularies_disjoint_witness :
  (exists kw,
     hands_over
       (PDict [(PStr "Doc", PDict [(PStr "body", PStr "string")])])
       (PStr "Doc") kw
     /\ In ("body", (TAny, Ellipsis)) kw)
  /\ (exists name kw dflt,
        hands_over
          (PDict [ (PStr "title", PStr "Doc");
                   (PStr "properties",
                    PDict [ (PStr "body", PDict [ (PStr "type", PStr "str") ]) ]) ])
          name kw
        /\ In ("body", (TAny, dflt)) kw).
Proof.
  destruct branch_vocabularies_disjoint as [Hsimple [Hjson _]]. split.
  - destruct (Hsimple (PStr "Doc") [(PStr "body", PStr "string")]
                "body" "string") as [kw [ty [Hcall [Hin [_ [_ Hany]]]]]].
    + repeat split; try reflexivity. repeat constructor. simpl. tauto.
    + simpl. tauto.
    + exists kw. split; [exact Hcall|].
      rewrite <- Hany; [exact Hin | simpl; tauto].
  - destruct (Hjson
                [ (PStr "title", PStr "Doc");
                  (PStr "properties",
                   PDict [ (PStr "body", PDict [ (PStr "type", PStr "str") ]) ]) ]
                [ (PStr "body", PDict [ (PStr "type", PStr "str") ]) ] []
                [ (PStr "type", PStr "str") ] "body" "str")
      as [name [kw [ty [dflt [Hcall [Hin [_ [_ Hany]]]]]]]].
    + reflexivity.
    + reflexivity.
    + reflexivity.
    + repeat split; try reflexivity. repeat constructor. simpl. tauto.
    + simpl. tauto.
    + reflexivity.
    + exists name, kw, dflt. split; [exact Hcall|].
      rewrite <- Hany; [exact Hin | simpl; tauto].
Defined.


(** C10.  The exclusion of [gpt-4] in the support test changes nothing: the
    test of the source equals the plain substring test on every
    identifier, because [gpt-4] contains neither [o1] nor [gpt-4o]. *)
Theorem exclusion_is_redundant (model_id : string) :
  supports_structured_output model_id = plain_substring_test model_id.
Proof.
  unfold supports_structured_output, plain_substring_test.
  destruct (String.eqb_spec model_id "gpt-4") as [-> | _].
  - reflexivity.
  - apply andb_true_r.
Qed.

(** ** The command: claims *)

Lemma stdout_of_app (t u : list event) :
  stdout_of (t ++ u) = stdout_of t ++ stdout_of u.
Proof. apply flat_map_app. Qed.

Lemma stderr_of_app (t u : list event) :
  stderr_of (t ++ u) = stderr_of t ++ stderr_of u.
Proof. apply flat_map_app. Qed.

Lemma truthy_text (content : option string) :
  truthy content = true ->
  content = Some (content_text content) /\ content_text content <> "".
Proof.
  destruct content as [[|c s]|]; simpl; try discriminate.
  intros _. split; [reflexivity | discriminate].
Qed.

Lemma falsy_content (content : option string) :
  truthy content = false <-> content = None \/ content = Some "".
Proof.
  destruct content as [[|c s]|]; simpl; split; intros H;
    try reflexivity; try discriminate; try tauto.
  destruct H as [H|H]; discriminate H.
Qed.

Ltac unfold_command :=
  unfold structure, try_except, structure_handler, structure_body,
    bind, emit, lift, raise.

(** Runs the translator inside the command, whatever the world. *)
Ltac run_translator doc :=
  let e := fresh "e" in
  let He := fresh "He" in
  let name := fresh "name" in
  let kw := fresh "kw" in
  let Hk := fresh "Hk" in
  match goal with
  | |- context [parse_schema_to_pydantic_model ?P doc] =>
      destruct (parse_world_independent P doc) as [[e He] | [name [kw Hk]]];
      [rewrite He | rewrite Hk]
  end.

Ltac close_trace :=
  cbn [snd fst trace next_class]; rewrite <- ?app_assoc; cbn [app].

(** C6.  Whatever the collaborators do, the command ends in one of two
    ways.  Either the body of the [try] completes, and then exactly one
    non-empty line went to standard output and nothing to standard error;
    or the body raised some exception [e], and then nothing went to standard
    output, the single line [Error: <str(e)>] went to standard error, and
    the command aborts. *)
Theorem errors_caught_all_or_nothing (P : pydantic) (E : env) (prompt schema model : string)
  (w : world) :
  exists evs,
    trace (snd (structure P E prompt schema model w)) = trace w ++ evs
    /\ ((fst (structure_body P E prompt schema model w) = inr tt
         /\ fst (structure P E prompt schema model w) = inr tt
         /\ (exists out, stdout_of evs = [out] /\ out <> "")
         /\ stderr_of evs = [])
        \/
        (exists e,
           fst (structure_body P E prompt schema model w) = inl e
           /\ fst (structure P E prompt schema model w) = inl (Exn Abort "")
           /\ stdout_of evs = []
           /\ stderr_of evs = [("Error: " ++ exn_text e)%string])).
Proof.
  unfold_command. cbn [next_class trace].
  destruct (open_file E schema) as [e|text];
    [eexists; split; [close_trace; reflexivity | right; eexists; repeat split]|].
  destruct (safe_load E text) as [e|doc];
    [eexists; split; [close_trace; reflexivity | right; eexists; repeat split]|].
  run_translator doc;
    [eexists; split; [close_trace; reflexivity | right; eexists; repeat split]|].
  cbn [next_class trace].
  destruct (get_model E model) as [e|inst];
    [eexists; split; [close_trace; reflexivity | right; eexists; repeat split]|].
  destruct (supports_structured_output (model_id inst));
    [|eexists; split; [close_trace; reflexivity | right; eexists; repeat split]].
  cbn [next_class trace].
  destruct (get_client inst) as [e|c];
    [eexists; split; [close_trace; reflexivity | right; eexists; repeat split]|].
  cbn [next_class trace].
  destruct (completions_parse c _ _ _) as [e|resp];
    [eexists; split; [close_trace; reflexivity | right; eexists; repeat split]|].
  destruct (first_content resp) as [e|content];
    [eexists; split; [close_trace; reflexivity | right; eexists; repeat split]|].
  destruct (truthy content) eqn:Ht;
    [|eexists; split; [close_trace; reflexivity | right; eexists; repeat split]].
  eexists. split; [close_trace; reflexivity|]. left.
  split; [reflexivity|]. split; [reflexivity|]. split; [|reflexivity].
  exists (content_text content). split; [reflexivity|].
  now apply truthy_text.
Qed.

(** C4, as the code has it.  Once the schema is loaded and translated and
    the model resolved, a completion request is issued only if the
    resolved identifier passes the support test.  When it passes and
    [get_client] returns a client, exactly one request is issued; when it
    passes and [get_client] raises, no request is issued and that error is
    reported.  An identifier that fails the test, [gpt-4] in particular,
    gets the unsupported-model error on standard error and an abort, with
    no request and no client. *)
Theorem request_iff_supported (P : pydantic) (E : env)
  (prompt schema model : string)
  (w : world) (text : string) (doc name : pyval)
  (kw : list (string * field_def)) (inst : model_instance) :
  open_file E schema = inr text ->
  safe_load E text = inr doc ->
  translates_to P doc name kw ->
  get_model E model = inr inst ->
  exists evs,
    trace (snd (structure P E prompt schema model w)) = trace w ++ evs
    /\ (existsb is_request evs = true ->
        supports_structured_output (model_id inst) = true)
    /\ (supports_structured_output (model_id inst) = true ->
        forall c, get_client inst = inr c ->
        filter is_request evs
        = [EvRequest (model_id inst) prompt (MkModel (next_class w) name kw)])
    /\ (supports_structured_output (model_id inst) = true ->
        forall e, get_client inst = inl e ->
        fst (structure P E prompt schema model w) = inl (Exn Abort "")
        /\ evs = [EvOpen schema; EvGetModel model; EvGetClient;
                  EvEcho ("Error: " ++ exn_text e)])
    /\ (supports_structured_output (model_id inst) = false ->
        fst (structure P E prompt schema model w) = inl (Exn Abort "")
        /\ evs = [EvOpen schema; EvGetModel model;
                  EvEcho "Error: Model does not support structured output"])
    /\ (model_id inst = "gpt-4" ->
        fst (structure P E prompt schema model w) = inl (Exn Abort "")
        /\ evs = [EvOpen schema; EvGetModel model;
                  EvEcho "Error: Model does not support structured output"]).
Proof.
  intros Hopen Hload Hdoc Hget.
  unfold_command. cbn [next_class trace].
  rewrite Hopen, Hload, Hdoc. cbn [next_class trace]. rewrite Hget.
  destruct (supports_structured_output (model_id inst)) eqn:Hsup.
  - assert (Hid : model_id inst <> "gpt-4").
    { intros Heq. rewrite Heq in Hsup. discriminate Hsup. }
    cbn [next_class trace].
    destruct (get_client inst) as [e|c].
    { eexists. split; [close_trace; reflexivity|].
      split; [discriminate|]. split; [intros _ c Hc; discriminate Hc|].
      split; [intros _ e' [= <-]; split; reflexivity|].
      split; [discriminate | intros Heq; contradiction]. }
    cbn [next_class trace].
    destruct (completions_parse c _ _ _) as [e|resp];
      [eexists; split; [close_trace; reflexivity|];
       split; [reflexivity|]; split; [reflexivity|];
       split; [intros _ e' He'; discriminate He'|];
       split; [discriminate | intros Heq; contradiction]|].
    destruct (first_content resp) as [e|content];
      [eexists; split; [close_trace; reflexivity|];
       split; [reflexivity|]; split; [reflexivity|];
       split; [intros _ e' He'; discriminate He'|];
       split; [discriminate | intros Heq; contradiction]|].
    destruct (truthy content);
      eexists; (split; [close_trace; reflexivity|]);
      (split; [reflexivity|]); (split; [reflexivity|]);
      (split; [intros _ e' He'; discriminate He'|]);
      (split; [discriminate | intros Heq; contradiction]).
  - eexists. split; [close_trace; reflexivity|].
    split; [discriminate|]. split; [discriminate|]. split; [discriminate|].
    split; intros _; split; reflexivity.
Qed.


Lemma request_iff_supported_witness :
  (fst (structure Samples.strict
          (Samples.one_file "s.yaml" Samples.person (Some "{}"))
          "hi" "s.yaml" "gpt-4" initial) = inl (Exn Abort "")
   /\ trace (snd (structure Samples.strict
                    (Samples.one_file "s.yaml" Samples.person (Some "{}"))
                    "hi" "s.yaml" "gpt-4" initial))
      = [EvOpen "s.yaml"; EvGetModel "gpt-4";
         EvEcho "Error: Model does not support structured output"])
  /\ (exists evs,
        trace (snd (structure Samples.strict
                      (Samples.one_file "s.yaml" Samples.person (Some "{}"))
                      "hi" "s.yaml" "gpt-4o" initial)) = evs
        /\ filter is_request evs
           = [EvRequest "gpt-4o" "hi"
                (MkModel 0 (PStr "Person")
                   [("name", (Tstr, Ellipsis)); ("age", (Tint, Ellipsis))])]).
Proof.
  split.
  - destruct (request_iff_supported Samples.strict
                (Samples.one_file "s.yaml" Samples.person (Some "{}"))
                "hi" "s.yaml" "gpt-4" initial "<text>" Samples.person
                (PStr "Person")
                [("name", (Tstr, Ellipsis)); ("age", (Tint, Ellipsis))]
                (ModelInstance "gpt-4"
                   (inr (Samples.answering (Some "{}")))))
      as [evs [Htrace [_ [_ [_ [_ Hgpt4]]]]]].
    + reflexivity.
    + reflexivity.
    + intros w. reflexivity.
    + reflexivity.
    + destruct (Hgpt4 eq_refl) as [Hrun Hevs]. split; [exact Hrun|].
      rewrite Htrace, Hevs. reflexivity.
  - destruct (request_iff_supported Samples.strict
                (Samples.one_file "s.yaml" Samples.person (Some "{}"))
                "hi" "s.yaml" "gpt-4o" initial "<text>" Samples.person
                (PStr "Person")
                [("name", (Tstr, Ellipsis)); ("age", (Tint, Ellipsis))]
                (ModelInstance "gpt-4o"
                   (inr (Samples.answering (Some "{}")))))
      as [evs [Htrace [_ [Hissued _]]]].
    + reflexivity.
    + reflexivity.
    + intros w. reflexivity.
    + reflexivity.
    + exists evs. split; [exact Htrace|].
      apply (Hissued eq_refl (Samples.answering (Some "{}")) eq_refl).
Defined.

(** C4 as stated fails when the resolved model has no usable
    [get_client]: the identifier [gpt-4o] passes the test of line 80 and is
    not [gpt-4], yet [get_client] raises before line 83 and no request is
    issued. *)
Lemma request_counterexample :
  exists inst,
    get_model (Samples.no_client Samples.person) "gpt-4o" = inr inst
    /\ supports_structured_output (model_id inst) = true
    /\ model_id inst <> "gpt-4"
    /\ existsb is_request
         (trace (snd (structure Samples.strict
                        (Samples.no_client Samples.person)
                        "hi" "s.yaml" "gpt-4o" initial))) = false.
Proof.
  eexists. split; [reflexivity|]. split; [reflexivity|].
  split; [discriminate | reflexivity].
Qed.


(** C5.  When the request succeeds and the first choice's content is
    absent or empty, the body raises the usage error [No response from
    model]; the command writes that error to standard error, aborts, and
    standard output is left as it was. *)
Theorem empty_response_is_an_error (P : pydantic) (E : env) (prompt schema model : string)
  (w : world) (text : string) (doc name : pyval)
  (kw : list (string * field_def)) (inst : model_instance) (c : client)
  (resp : response) (content : option string) (others : list (option string)) :
  open_file E schema = inr text ->
  safe_load E text = inr doc ->
  translates_to P doc name kw ->
  get_model E model = inr inst ->
  supports_structured_output (model_id inst) = true ->
  get_client inst = inr c ->
  completions_parse c (model_id inst) [("user", prompt)]
                    (MkModel (next_class w) name kw) = inr resp ->
  choices resp = content :: others ->
  content = None \/ content = Some "" ->
  fst (structure_body P E prompt schema model w)
  = inl (Exn BadParameter "No response from model")
  /\ structure P E prompt schema model w
     = (inl (Exn Abort ""),
        World (S (next_class w))
              (trace w ++ [EvOpen schema; EvGetModel model; EvGetClient;
                           EvRequest (model_id inst) prompt
                                     (MkModel (next_class w) name kw);
                           EvEcho "Error: No response from model"]))
  /\ stdout_of (trace (snd (structure P E prompt schema model w)))
     = stdout_of (trace w).
Proof.
  intros Hopen Hload Hdoc Hget Hsup Hclient Hresp Hchoices Hempty.
  apply falsy_content in Hempty.
  assert (Hrun : structure_body P E prompt schema model w
                 = (inl (Exn BadParameter "No response from model"),
                    World (S (next_class w))
                          (trace w ++ [EvOpen schema; EvGetModel model;
                                       EvGetClient;
                                       EvRequest (model_id inst) prompt
                                         (MkModel (next_class w) name kw)]))).
  { unfold structure_body, bind, emit, lift, raise. cbn [next_class trace].
    rewrite Hopen, Hload, Hdoc. cbn [next_class trace].
    rewrite Hget, Hsup. cbn [next_class trace].
    rewrite Hclient. cbn [next_class trace]. rewrite Hresp.
    unfold first_content. rewrite Hchoices, Hempty.
    close_trace. reflexivity. }
  unfold structure, try_except. rewrite Hrun.
  unfold structure_handler, bind, emit, raise. close_trace.
  split; [reflexivity|]. split; [reflexivity|].
  rewrite stdout_of_app. cbn. apply app_nil_r.
Qed.

Lemma empty_response_is_an_error_witness :
  structure Samples.strict (Samples.one_file "s.yaml" Samples.person (Some ""))
            "hi" "s.yaml" "gpt-4o" initial
  = (inl (Exn Abort ""),
     World 1 [EvOpen "s.yaml"; EvGetModel "gpt-4o"; EvGetClient;
              EvRequest "gpt-4o" "hi"
                (MkModel 0 (PStr "Person")
                   [("name", (Tstr, Ellipsis)); ("age", (Tint, Ellipsis))]);
              EvEcho "Error: No response from model"]).
Proof.
  refine (proj1 (proj2 (empty_response_is_an_error Samples.strict
            (Samples.one_file "s.yaml" Samples.person (Some ""))
            "hi" "s.yaml" "gpt-4o" initial "<text>" Samples.person
            (PStr "Person")
            [("name", (Tstr, Ellipsis)); ("age", (Tint, Ellipsis))]
            (ModelInstance "gpt-4o" (inr (Samples.answering (Some ""))))
            (Samples.answering (Some "")) (Response [Some ""]) (Some "") []
            _ _ _ _ _ _ _ _ _))).
  - reflexivity.
  - reflexivity.
  - intros w. reflexivity.
  - reflexivity.
  - reflexivity.
  - reflexivity.
  - reflexivity.
  - reflexivity.
  - right. reflexivity.
Defined.

(** C7.  When opening the schema file raises, the command writes that error
    and aborts having done nothing else: no model resolution, no request.
    In every execution the file is opened first, and a model resolution or a
    request appears in the trace only after the file was loaded and its
    content translated, the resolution coming before any request. *)
Theorem schema_file_error_precedes_everything (P : pydantic) (E : env)
  (prompt schema model : string) (w : world) :
  (forall e, open_file E schema = inl e ->
     structure P E prompt schema model w
     = (inl (Exn Abort ""),
        World (next_class w)
              (trace w ++ [EvOpen schema; EvEcho ("Error: " ++ exn_text e)])))
  /\ exists rest,
       trace (snd (structure P E prompt schema model w))
       = trace w ++ EvOpen schema :: rest
       /\ (existsb is_get_model rest || existsb is_request rest = true ->
           exists text doc name kw rest',
             open_file E schema = inr text
             /\ safe_load E text = inr doc
             /\ translates_to P doc name kw
             /\ rest = EvGetModel model :: rest'
             /\ existsb is_get_model rest' = false).
Proof.
  split.
  - intros e He. unfold_command. cbn [next_class trace]. rewrite He.
    close_trace. reflexivity.
  - unfold_command. cbn [next_class trace].
    destruct (open_file E schema) as [e|text];
      [eexists; split; [close_trace; reflexivity | discriminate]|].
    destruct (safe_load E text) as [e|doc] eqn:Hload;
      [eexists; split; [close_trace; reflexivity | discriminate]|].
    run_translator doc;
      [eexists; split; [close_trace; reflexivity | discriminate]|].
    assert (Hshape : forall rest',
               existsb is_get_model rest' = false ->
               exists (text' : string) (doc' name' : pyval)
                      (kw' : list (string * field_def)) (rest'' : list event),
                 @inr exn string text = inr text'
                 /\ safe_load E text' = inr doc'
                 /\ translates_to P doc' name' kw'
                 /\ EvGetModel model :: rest' = EvGetModel model :: rest''
                 /\ existsb is_get_model rest'' = false).
    { intros rest' Hrest. exists text, doc, name, kw, rest'. now repeat split. }
    cbn [next_class trace].
    destruct (get_model E model) as [e|inst];
      [eexists; split; [close_trace; reflexivity | intros _; now apply Hshape]|].
    destruct (supports_structured_output (model_id inst));
      [|eexists; split; [close_trace; reflexivity | intros _; now apply Hshape]].
    cbn [next_class trace].
    destruct (get_client inst) as [e|c];
      [eexists; split; [close_trace; reflexivity | intros _; now apply Hshape]|].
    cbn [next_class trace].
    destruct (completions_parse c _ _ _) as [e|resp];
      [eexists; split; [close_trace; reflexivity | intros _; now apply Hshape]|].
    destruct (first_content resp) as [e|content];
      [eexists; split; [close_trace; reflexivity | intros _; now apply Hshape]|].
    destruct (truthy content);
      eexists; (split; [close_trace; reflexivity | intros _; now apply Hshape]).
Qed.

Lemma schema_file_error_precedes_everything_witness :
  structure Samples.strict (Samples.one_file "s.yaml" Samples.person (Some "{}"))
            "hi" "missing.yaml" "gpt-4o" initial
  = (inl (Exn Abort ""),
     World 0 [EvOpen "missing.yaml";
              EvEcho "Error: [Errno 2] No such file or directory: 'missing.yaml'"]).
Proof.
  apply (proj1 (schema_file_error_precedes_everything Samples.strict
                  (Samples.one_file "s.yaml" Samples.person (Some "{}"))
                  "hi" "missing.yaml" "gpt-4o" initial)
               (Exn (External "FileNotFoundError")
                    "[Errno 2] No such file or directory: 'missing.yaml'")).
  reflexivity.
Defined.

(** ** The translator: what it rejects and what it accepts *)

(** A schema that is not a mapping is always rejected and no class is
    made: [None] and numbers have no [len] ([TypeError]); a string or a
    list has a length but neither [values] nor [get] ([AttributeError]). *)
Theorem non_mapping_rejected (P : pydantic) (v : pyval) (w : world) :
  isinstance_dict v = false ->
  exists text,
    parse_schema_to_pydantic_model P v w
    = (inl (Exn (match v with
                 | PStr _ | PList _ => AttributeError
                 | _ => TypeError
                 end) text), w).
Proof.
  intros Hv. unfold parse_schema_to_pydantic_model, bind, lift, is_simple_form.
  destruct v as [| b | z | f | s | l | d]; try discriminate Hv;
    cbn [len bindR values get];
    try (eexists; reflexivity).
  - destruct (String.length s =? 1)%nat; eexists; reflexivity.
  - destruct (List.length l =? 1)%nat; eexists; reflexivity.
Qed.


Lemma non_mapping_rejected_witness :
  exists text,
    parse_schema_to_pydantic_model Samples.strict (PList [PStr "name"; PStr "age"]) initial
    = (inl (Exn AttributeError text), initial).
Proof.
  apply (non_mapping_rejected Samples.strict (PList [PStr "name"; PStr "age"]) initial).
  reflexivity.
Defined.


Lemma py_eq_is_str (k k' : pyval) :
  py_eq k k' = true -> is_str k = is_str k'.
Proof.
  destruct k, k'; intros H; try reflexivity; simpl in H; discriminate H.
Qed.

Lemma dict_store_is_str {V : Type} (d : list (pyval * V)) (k : pyval) (v : V) :
  forallb is_str (map fst (dict_store d k v))
  = forallb is_str (map fst d) && is_str k.
Proof.
  induction d as [|[k' v'] d IH]; cbn [dict_store map fst forallb].
  - now rewrite andb_true_r.
  - destruct (py_eq k k') eqn:E; cbn [map fst forallb].
    + apply py_eq_is_str in E. rewrite E.
      destruct (is_str k'), (forallb is_str (map fst d)); reflexivity.
    + rewrite IH. now rewrite andb_assoc.
Qed.

Lemma is_str_hashable (v : pyval) : is_str v = true -> hashable v = true.
Proof. destruct v; simpl; congruence. Qed.

Lemma forallb_is_str_hashable (l : list pyval) :
  forallb is_str l = true -> forallb hashable l = true.
Proof.
  rewrite !forallb_forall. intros H x Hx. apply is_str_hashable. now apply H.
Qed.

(** The first loop without any assumption on its input: it fails only with
    [TypeError], exactly when a value or a key cannot be hashed, and the
    keys it stores are strings exactly when the keys it met are. *)
Lemma simple_loop_outcome (its : list (pyval * pyval)) :
  forall acc : list (pyval * field_def),
    match simple_loop its acc with
    | inr fields =>
        forallb hashable (map snd its) && forallb hashable (map fst its) = true
        /\ forallb is_str (map fst fields)
           = forallb is_str (map fst acc) && forallb is_str (map fst its)
    | inl e =>
        exn_kind_of e = TypeError
        /\ forallb hashable (map snd its) && forallb hashable (map fst its)
           = false
    end.
Proof.
  induction its as [|[k t] its IH]; intros acc; cbn [simple_loop map fst snd forallb].
  - split; [reflexivity | now rewrite andb_true_r].
  - unfold dict_get, setitem.
    destruct (hashable t); cbn [bindR andb];
      [|split; reflexivity].
    destruct (hashable k); cbn [bindR andb];
      [|split; [reflexivity | now rewrite andb_false_r]].
    specialize (IH (dict_store acc k
                      (lookup_default simple_type_mapping t TAny, Ellipsis))).
    destruct (simple_loop its _) as [e|fields].
    + exact IH.
    + destruct IH as [Hh Hs]. split; [exact Hh|].
      rewrite Hs, dict_store_is_str. now rewrite andb_assoc.
Qed.

(** A one-key mapping whose value is a mapping gets as far as the
    [create_model] call of line 29 exactly when every inner key is a string
    and every inner value can be hashed; the call then carries the outer
    key and at most one keyword per inner entry.  In every other case the
    translator raises [TypeError] before the call, whatever pydantic would
    do, and makes no class. *)
Theorem simple_form_accepted_iff (name : pyval) (inner : list (pyval * pyval)) :
  (forallb is_str (map fst inner) && forallb hashable (map snd inner) = true ->
   exists kw,
     hands_over (PDict [(name, PDict inner)]) name kw
     /\ List.length kw <= List.length inner)
  /\ (forallb is_str (map fst inner) && forallb hashable (map snd inner) = false ->
      exists text, forall P w,
        parse_schema_to_pydantic_model P (PDict [(name, PDict inner)]) w
        = (inl (Exn TypeError text), w)).
Proof.
  unfold hands_over, parse_schema_to_pydantic_model, bind, lift.
  rewrite is_simple_form_single.
  cbn [keys values items next_iter map fst snd bindR].
  pose proof (simple_loop_outcome inner []) as Hloop.
  assert (Hlen : forall its acc fields,
             simple_loop its acc = inr fields ->
             List.length fields <= List.length acc + List.length its).
  { induction its as [|[k t] its IH]; intros acc fields; cbn [simple_loop].
    - intros [= <-]. simpl. lia.
    - unfold dict_get, setitem.
      destruct (hashable t); cbn [bindR]; [|discriminate].
      destruct (hashable k); cbn [bindR]; [|discriminate].
      intros H. apply IH in H.
      assert (Hst : forall (d : list (pyval * field_def)) x,
                 List.length (dict_store d k x) <= S (List.length d)).
      { induction d as [|[k' v'] d IHd]; intros x; cbn [dict_store].
        - simpl. lia.
        - destruct (py_eq k k'); simpl; [lia|]. specialize (IHd x). lia. }
      specialize (Hst acc (lookup_default simple_type_mapping t TAny, Ellipsis)).
      simpl. lia. }
  destruct (simple_loop inner []) as [e|fields] eqn:Erun.
  - destruct Hloop as [Hkind Hbad]. split.
    + intros Hgood. apply andb_true_iff in Hgood as [Hk Hv].
      rewrite Hv, (forallb_is_str_hashable _ Hk) in Hbad. discriminate Hbad.
    + intros _. destruct e as [kind text]. cbn in Hkind. subst kind.
      exists text. intros P w. reflexivity.
  - destruct Hloop as [Hh Hkeys]. cbn [map forallb andb] in Hkeys.
    apply andb_true_iff in Hh as [Hv _].
    apply Hlen in Erun. cbn [List.length Nat.add] in Erun.
    split.
    + intros Hgood. apply andb_true_iff in Hgood as [Hk _].
      rewrite Hk in Hkeys. rewrite (keywords_of_strings _ _ Hkeys).
      eexists. split; [intros P w; reflexivity|].
      now rewrite length_map.
    + intros Hbad. rewrite Hv, andb_true_r in Hbad. rewrite Hbad in Hkeys.
      destruct (keywords_non_string _ _ Hkeys) as [text ->].
      exists text. intros P w. reflexivity.
Qed.


Lemma simple_form_accepted_iff_witness :
  exists text,
    parse_schema_to_pydantic_model Samples.strict
      (PDict [(PStr "Person",
               PDict [(PStr "name", PStr "str");
                      (PStr "tags", PList [PStr "str"])])]) initial
    = (inl (Exn TypeError text), initial).
Proof.
  destruct (proj2 (simple_form_accepted_iff
                     (PStr "Person")
                     [(PStr "name", PStr "str"); (PStr "tags", PList [PStr "str"])])
                  eq_refl) as [text H].
  exists text. apply H.
Defined.


(** The second loop without any assumption on [properties], for a
    [required] that is a list: it fails with [AttributeError] (a property
    that is not a mapping) or [TypeError] (a [type] or a key that cannot be
    hashed), and only then. *)
Lemma json_loop_outcome (req : list pyval) (its : list (pyval * pyval)) :
  forall acc : list (pyval * field_def),
    match json_loop (PList req) its acc with
    | inr fields =>
        forallb property_ok (map snd its) && forallb hashable (map fst its)
        = true
        /\ forallb is_str (map fst fields)
           = forallb is_str (map fst acc) && forallb is_str (map fst its)
    | inl e =>
        (exn_kind_of e = TypeError \/ exn_kind_of e = AttributeError)
        /\ forallb property_ok (map snd its) && forallb hashable (map fst its)
           = false
    end.
Proof.
  induction its as [|[k fsch] its IH]; intros acc;
    cbn [json_loop map fst snd forallb].
  - split; [reflexivity | now rewrite andb_true_r].
  - destruct fsch as [| b | z | f | s | l | fs];
      try (cbn [get bindR property_ok isinstance_dict andb];
           split; [right; reflexivity | reflexivity]).
    cbn [get]. unfold dict_get at 1. cbn [hashable bindR].
    unfold property_ok. cbn [isinstance_dict declared_type andb].
    unfold dict_get, setitem.
    destruct (hashable (lookup_default fs (PStr "type") PNone));
      cbn [bindR andb py_in];
      [|split; [left; reflexivity | reflexivity]].
    destruct (hashable k); cbn [bindR andb];
      [|split; [left; reflexivity | now rewrite andb_false_r]].
    match goal with
    | |- match json_loop _ _ ?a with _ => _ end => specialize (IH a)
    end.
    destruct (json_loop (PList req) its _) as [e|fields].
    + exact IH.
    + destruct IH as [Hh Hs]. split; [exact Hh|].
      rewrite Hs, dict_store_is_str. now rewrite andb_assoc.
Qed.

(** A mapping that takes the second branch with a mapping under
    [properties] and a list under [required] (or without these keys) gets
    as far as the [create_model] call of line 50 exactly when every
    property name is a string and every property is a mapping whose [type]
    can be hashed; the call then carries [title] or [DynamicModel] as the
    name.  Otherwise the translator raises [TypeError] or [AttributeError]
    before the call, whatever pydantic would do, and makes no class. *)
Theorem json_form_accepted_iff (d props : list (pyval * pyval))
  (req : list pyval) :
  is_simple_form (PDict d) = inr false ->
  lookup_default d (PStr "properties") (PDict []) = PDict props ->
  lookup_default d (PStr "required") (PList []) = PList req ->
  (forallb is_str (map fst props) && forallb property_ok (map snd props) = true ->
   exists kw,
     hands_over (PDict d)
                (lookup_default d (PStr "title") (PStr "DynamicModel")) kw)
  /\ (forallb is_str (map fst props) && forallb property_ok (map snd props) = false ->
      exists e,
        (forall P w, parse_schema_to_pydantic_model P (PDict d) w = (inl e, w))
        /\ (exn_kind_of e = TypeError \/ exn_kind_of e = AttributeError)).
Proof.
  intros Hform Hprops Hreq.
  unfold hands_over, parse_schema_to_pydantic_model, bind, lift.
  rewrite Hform. cbn [get]. unfold dict_get. cbn [hashable].
  rewrite Hprops, Hreq. cbn [items bindR].
  pose proof (json_loop_outcome req props []) as Hloop.
  destruct (json_loop (PList req) props []) as [e|fields].
  - destruct Hloop as [Hkind Hbad]. split.
    + intros Hgood. apply andb_true_iff in Hgood as [Hk Hv].
      rewrite Hv, (forallb_is_str_hashable _ Hk) in Hbad. discriminate Hbad.
    + intros _. exists e. split; [intros P w; reflexivity | exact Hkind].
  - destruct Hloop as [Hh Hkeys]. cbn [map forallb andb] in Hkeys.
    apply andb_true_iff in Hh as [Hv _]. split.
    + intros Hgood. apply andb_true_iff in Hgood as [Hk _].
      rewrite Hk in Hkeys. rewrite (keywords_of_strings _ _ Hkeys).
      eexists. intros P w. reflexivity.
    + intros Hbad. rewrite Hv, andb_true_r in Hbad. rewrite Hbad in Hkeys.
      destruct (keywords_non_string _ _ Hkeys) as [text ->].
      eexists. split; [intros P w; reflexivity | left; reflexivity].
Qed.


Lemma json_form_accepted_iff_witness :
  exists e,
    parse_schema_to_pydantic_model Samples.strict
      (PDict [ (PStr "title", PStr "Item");
               (PStr "properties", PDict [ (PStr "qty", PStr "integer") ]) ])
      initial = (inl e, initial)
    /\ (exn_kind_of e = TypeError \/ exn_kind_of e = AttributeError).
Proof.
  destruct (proj2 (json_form_accepted_iff
                     [ (PStr "title", PStr "Item");
                       (PStr "properties", PDict [ (PStr "qty", PStr "integer") ]) ]
                     [ (PStr "qty", PStr "integer") ] []
                     eq_refl eq_refl eq_refl) eq_refl) as [e [Hrun Hkind]].
  exists e. split; [apply Hrun | exact Hkind].
Defined.


(** When [properties] holds something that is not a mapping (a list, a
    string, [None]), the second branch raises [AttributeError] at
    [properties.items()] and makes no class. *)
Theorem properties_must_be_mapping (P : pydantic) (d : list (pyval * pyval)) (v : pyval)
  (w : world) :
  is_simple_form (PDict d) = inr false ->
  lookup_default d (PStr "properties") (PDict []) = v ->
  isinstance_dict v = false ->
  exists text,
    parse_schema_to_pydantic_model P (PDict d) w
    = (inl (Exn AttributeError text), w).
Proof.
  intros Hform Hprops Hv.
  unfold parse_schema_to_pydantic_model, bind, lift.
  rewrite Hform. cbn [get]. unfold dict_get. cbn [hashable]. rewrite Hprops.
  destruct v; try discriminate Hv; eexists; reflexivity.
Qed.


Lemma properties_must_be_mapping_witness :
  exists text,
    parse_schema_to_pydantic_model Samples.strict
      (PDict [ (PStr "title", PStr "Item"); (PStr "properties", PNone) ])
      initial = (inl (Exn AttributeError text), initial).
Proof.
  apply (properties_must_be_mapping Samples.strict
           [ (PStr "title", PStr "Item"); (PStr "properties", PNone) ]
           PNone initial); reflexivity.
Defined.


(** Without properties the loop body never runs, so [required] is never
    looked at: whatever it holds, the translator calls [create_model] with
    no field at all and [title] or [DynamicModel] as the name. *)
Theorem no_properties_no_fields (d : list (pyval * pyval)) :
  is_simple_form (PDict d) = inr false ->
  lookup_default d (PStr "properties") (PDict []) = PDict [] ->
  hands_over (PDict d)
             (lookup_default d (PStr "title") (PStr "DynamicModel")) [].
Proof.
  intros Hform Hprops P w.
  unfold parse_schema_to_pydantic_model, bind, lift.
  rewrite Hform. cbn [get]. unfold dict_get. cbn [hashable]. rewrite Hprops.
  reflexivity.
Qed.


Lemma no_properties_no_fields_witness :
  hands_over
    (PDict [ (PStr "title", PStr "Empty"); (PStr "required", PInt 5) ])
    (PStr "Empty") [].
Proof.
  apply (no_properties_no_fields
           [ (PStr "title", PStr "Empty"); (PStr "required", PInt 5) ]);
    reflexivity.
Defined.


(** ** [required] that is not a list *)

(** The second loop for any [required] on which the membership test of
    line 47 succeeds on strings. *)
Lemma json_loop_by (required : pyval) (mem : pyval -> bool)
  (its : list (pyval * pyval)) :
  (forall s, py_in (PStr s) required = inr (mem (PStr s))) ->
  forall acc : list (pyval * field_def),
    forallb is_str (map fst its) = true ->
    forallb property_ok (map snd its) = true ->
    NoDup (map fst acc ++ map fst its) ->
    json_loop required its acc = inr (acc ++ map (json_field_by mem) its).
Proof.
  intros Hmem.
  induction its as [|[k fsch] its IH]; intros acc Hstr Hok Hnd.
  - simpl. now rewrite app_nil_r.
  - cbn [map fst snd forallb] in Hstr, Hok, Hnd.
    apply andb_true_iff in Hstr as [Hk Hstr].
    apply andb_true_iff in Hok as [Hf Hok].
    apply is_str_inv in Hk as [s ->].
    apply nodup_app_head in Hnd as [Hfresh Hnd].
    unfold property_ok in Hf. apply andb_true_iff in Hf as [Hdict Hty].
    destruct fsch as [| | | | | |fs]; try discriminate Hdict.
    cbn [declared_type] in Hty.
    cbn [json_loop get]. unfold dict_get at 1. cbn [hashable bindR].
    unfold dict_get, setitem. rewrite Hty. cbn [bindR].
    rewrite Hmem. cbn [bindR hashable].
    rewrite dict_store_fresh by exact Hfresh.
    rewrite IH; try assumption.
    + cbn [map]. rewrite <- app_assoc. reflexivity.
    + rewrite map_app. exact Hnd.
Qed.

Lemma json_branch_by (d props : list (pyval * pyval)) (required : pyval)
  (mem : pyval -> bool) :
  is_simple_form (PDict d) = inr false ->
  lookup_default d (PStr "properties") (PDict []) = PDict props ->
  lookup_default d (PStr "required") (PList []) = required ->
  (forall s, py_in (PStr s) required = inr (mem (PStr s))) ->
  properties_ok props ->
  hands_over (PDict d)
             (lookup_default d (PStr "title") (PStr "DynamicModel"))
             (map (fun kv => as_keyword (json_field_by mem kv)) props).
Proof.
  intros Hform Hprops Hreq Hmem [[Hstr Hnd] Hok] P w.
  unfold parse_schema_to_pydantic_model, bind, lift.
  rewrite Hform. cbn [get]. unfold dict_get. cbn [hashable].
  rewrite Hprops, Hreq. cbn [items bindR].
  rewrite (json_loop_by required mem props Hmem) by assumption. cbn [app].
  rewrite keywords_of_strings.
  - now rewrite map_map.
  - rewrite map_map. cbn [json_field_by fst]. exact Hstr.
Qed.


Lemma json_field_by_required (mem : pyval -> bool)
  (props : list (pyval * pyval)) (f : string * field_def) :
  string_keyed props ->
  In f (map (fun kv => as_keyword (json_field_by mem kv)) props) ->
  In (PStr (fst f)) (map fst props)
  /\ (snd (snd f) = Ellipsis <-> mem (PStr (fst f)) = true).
Proof.
  intros Hkeyed Hf. apply in_map_iff in Hf as [[k v] [<- Hin]].
  destruct (@string_keyed_in props k v Hkeyed Hin) as [s ->].
  cbn [as_keyword json_field_by fst snd str_of]. split.
  - apply in_map_iff. exists (PStr s, v). split; [reflexivity | exact Hin].
  - destruct (mem (PStr s)); split; intros H;
      try reflexivity; discriminate H.
Qed.

(** When [required] holds a single string instead of a list, line 47 is a
    substring test: in the [create_model] call a field is marked required
    exactly when its name occurs somewhere inside that string. *)
Theorem required_string_is_substring_test (d props : list (pyval * pyval))
  (hay : string) :
  is_simple_form (PDict d) = inr false ->
  lookup_default d (PStr "properties") (PDict []) = PDict props ->
  lookup_default d (PStr "required") (PList []) = PStr hay ->
  properties_ok props ->
  exists kw,
    hands_over (PDict d)
               (lookup_default d (PStr "title") (PStr "DynamicModel")) kw
    /\ map (fun f => PStr (fst f)) kw = map fst props
    /\ (forall f, In f kw ->
          (snd (snd f) = Ellipsis <-> str_contains (fst f) hay = true)).
Proof.
  intros Hform Hprops Hreq Hok.
  pose (mem := fun k : pyval => str_contains (str_of k) hay).
  eexists. split.
  - apply (json_branch_by d props (PStr hay) mem Hform Hprops Hreq);
      [intros s; reflexivity | exact Hok].
  - split.
    + rewrite map_map. apply map_ext_in. intros [k v] Hin.
      destruct (@string_keyed_in props k v (proj1 Hok) Hin) as [s ->].
      reflexivity.
    + intros f Hf.
      apply (json_field_by_required mem props f (proj1 Hok) Hf).
Qed.


Lemma required_string_is_substring_test_witness :
  hands_over
    (PDict [ (PStr "title", PStr "P");
             (PStr "properties",
              PDict [ (PStr "nam", PDict [(PStr "type", PStr "string")]);
                      (PStr "age", PDict [(PStr "type", PStr "integer")]) ]);
             (PStr "required", PStr "name") ])
    (PStr "P")
    [("nam", (Tstr, Ellipsis)); ("age", (Tint, DefaultNone))].
Proof.
  destruct (required_string_is_substring_test
              [ (PStr "title", PStr "P");
                (PStr "properties",
                 PDict [ (PStr "nam", PDict [(PStr "type", PStr "string")]);
                         (PStr "age", PDict [(PStr "type", PStr "integer")]) ]);
                (PStr "required", PStr "name") ]
              [ (PStr "nam", PDict [(PStr "type", PStr "string")]);
                (PStr "age", PDict [(PStr "type", PStr "integer")]) ]
              "name") as [kw [Hcall _]].
  - reflexivity.
  - reflexivity.
  - reflexivity.
  - repeat split; try reflexivity.
    repeat constructor; simpl; intuition discriminate.
  - pose proof (Hcall Samples.permissive initial) as Hrun.
    vm_compute in Hrun. injection Hrun as <-. exact Hcall.
Defined.


(** When [required] holds a mapping, line 47 tests its keys: in the
    [create_model] call a field is marked required exactly when its name is
    a key of that mapping. *)
Theorem required_mapping_tests_keys (d props rd : list (pyval * pyval)) :
  is_simple_form (PDict d) = inr false ->
  lookup_default d (PStr "properties") (PDict []) = PDict props ->
  lookup_default d (PStr "required") (PList []) = PDict rd ->
  properties_ok props ->
  exists kw,
    hands_over (PDict d)
               (lookup_default d (PStr "title") (PStr "DynamicModel")) kw
    /\ map (fun f => PStr (fst f)) kw = map fst props
    /\ (forall f, In f kw ->
          (snd (snd f) = Ellipsis <-> In (PStr (fst f)) (map fst rd))).
Proof.
  intros Hform Hprops Hreq Hok.
  pose (mem := fun k : pyval => existsb (fun kv : pyval * pyval => py_eq k (fst kv)) rd).
  eexists. split.
  - apply (json_branch_by d props (PDict rd) mem Hform Hprops Hreq);
      [intros s; reflexivity | exact Hok].
  - split.
    + rewrite map_map. apply map_ext_in. intros [k v] Hin.
      destruct (@string_keyed_in props k v (proj1 Hok) Hin) as [s ->].
      reflexivity.
    + intros f Hf.
      destruct (json_field_by_required mem props f (proj1 Hok) Hf) as [_ Hiff].
      rewrite Hiff. unfold mem. rewrite existsb_exists. split.
      * intros [[k v] [Hin Heq]]. cbn [fst] in Heq.
        apply py_eq_str_l in Heq. subst k.
        apply in_map_iff. exists (PStr (fst f), v). split; [reflexivity | exact Hin].
      * intros Hin. apply in_map_iff in Hin as [[k v] [Hk Hin]].
        cbn [fst] in Hk. subst k. exists (PStr (fst f), v).
        split; [exact Hin | now apply py_eq_str_l].
Qed.


Lemma required_mapping_tests_keys_witness :
  hands_over
    (PDict [ (PStr "properties",
              PDict [ (PStr "qty", PDict [(PStr "type", PStr "integer")]) ]);
             (PStr "required", PDict [ (PStr "qty", PBool true) ]) ])
    (PStr "DynamicModel")
    [("qty", (Tint, Ellipsis))].
Proof.
  destruct (required_mapping_tests_keys
              [ (PStr "properties",
                 PDict [ (PStr "qty", PDict [(PStr "type", PStr "integer")]) ]);
                (PStr "required", PDict [ (PStr "qty", PBool true) ]) ]
              [ (PStr "qty", PDict [(PStr "type", PStr "integer")]) ]
              [ (PStr "qty", PBool true) ]) as [kw [Hcall _]].
  - reflexivity.
  - reflexivity.
  - reflexivity.
  - repeat split; try reflexivity. repeat constructor. simpl. tauto.
  - pose proof (Hcall Samples.permissive initial) as Hrun.
    vm_compute in Hrun. injection Hrun as <-. exact Hcall.
Defined.


(** When [required] holds [None] or a number (what an empty [required:]
    line loads as) and the first property is well formed, line 47 raises
    [TypeError]: the schema is rejected and no class is made. *)
Theorem required_scalar_rejected (P : pydantic) (d rest fs : list (pyval * pyval))
  (r : pyval) (s : string) (w : world) :
  is_simple_form (PDict d) = inr false ->
  lookup_default d (PStr "properties") (PDict [])
  = PDict ((PStr s, PDict fs) :: rest) ->
  lookup_default d (PStr "required") (PList []) = r ->
  hashable r = true -> is_str r = false ->
  hashable (lookup_default fs (PStr "type") PNone) = true ->
  exists text,
    parse_schema_to_pydantic_model P (PDict d) w = (inl (Exn TypeError text), w).
Proof.
  intros Hform Hprops Hreq Hhash Hstr Hty.
  unfold parse_schema_to_pydantic_model, bind, lift.
  rewrite Hform. cbn [get]. unfold dict_get at 1 2. cbn [hashable].
  rewrite Hprops, Hreq. cbn [items bindR json_loop get].
  unfold dict_get at 1. cbn [hashable bindR].
  unfold dict_get at 1. rewrite Hty. cbn [bindR].
  destruct r; try discriminate Hhash; try discriminate Hstr;
    eexists; reflexivity.
Qed.


Lemma required_scalar_rejected_witness :
  exists text,
    parse_schema_to_pydantic_model Samples.strict
      (PDict [ (PStr "properties",
                PDict [ (PStr "qty", PDict [(PStr "type", PStr "integer")]) ]);
               (PStr "required", PNone) ]) initial
    = (inl (Exn TypeError text), initial).
Proof.
  apply (required_scalar_rejected Samples.strict
           [ (PStr "properties",
              PDict [ (PStr "qty", PDict [(PStr "type", PStr "integer")]) ]);
             (PStr "required", PNone) ]
           [] [(PStr "type", PStr "integer")] PNone "qty" initial);
    reflexivity.
Defined.


(** ** The two forms describe the same models *)

Lemma resolve_json_name_of (t : string) :
  In t simple_names \/ ~ In t vocabulary ->
  resolve json_type_mapping (PStr (json_name_of t))
  = resolve simple_type_mapping (PStr t).
Proof.
  intros [Hin | Hout].
  - unfold simple_names in Hin. simpl in Hin.
    repeat (destruct Hin as [<- | Hin]; [reflexivity|]). contradiction.
  - assert (Hs : ~ In t simple_names).
    { intros H. apply Hout. unfold vocabulary. apply in_or_app. now right. }
    assert (Hj : ~ In t json_names).
    { intros H. apply Hout. unfold vocabulary. apply in_or_app. now left. }
    assert (Hname : json_name_of t = t).
    { unfold json_name_of. unfold simple_names in Hs. simpl in Hs.
      split_eqb t; try reflexivity; exfalso; apply Hs; tauto. }
    rewrite Hname, (resolve_outside_simple t Hs), (resolve_outside_json t Hj).
    reflexivity.
Qed.

Lemma nodup_map_PStr (names : list string) :
  NoDup names -> NoDup (map PStr names).
Proof.
  induction 1 as [|x l Hx Hl IH]; simpl; constructor; [|exact IH].
  intros Hin. apply in_map_iff in Hin as [y [[= ->] Hy]]. contradiction.
Qed.

(** A model written in the simple form and the same model written as a
    JSON-Schema document (corresponding type names, every field listed in
    [required]) make the translator call [create_model] with the same name
    and the same field definitions, all required, in the same order; so
    the two translations end alike, in the same model or the same error,
    whatever pydantic does.  The type names may be the six of the first
    table or any name outside the vocabulary. *)
Theorem both_forms_agree (name : string) (fs : list (string * string)) :
  NoDup (map fst fs) ->
  Forall (fun f => In (snd f) simple_names \/ ~ In (snd f) vocabulary) fs ->
  exists kw,
    hands_over (simple_schema_of name fs) (PStr name) kw
    /\ hands_over (json_schema_of name fs) (PStr name) kw
    /\ map fst kw = map fst fs
    /\ forallb required_field kw = true
    /\ (forall P w,
          parse_schema_to_pydantic_model P (simple_schema_of name fs) w
          = parse_schema_to_pydantic_model P (json_schema_of name fs) w).
Proof.
  intros Hnd Htypes.
  exists (map (fun f => (fst f, (resolve simple_type_mapping (PStr (snd f)),
                                 Ellipsis))) fs).
  assert (Hkeys : forall (g : string * string -> pyval),
             forallb is_str (map fst (map (fun f => (PStr (fst f), g f)) fs))
             = true).
  { intros g. apply forallb_forall. intros k Hk.
    rewrite map_map in Hk. apply in_map_iff in Hk as [f [<- _]]. reflexivity. }
  assert (Hdistinct : forall (g : string * string -> pyval),
             NoDup (map fst (map (fun f => (PStr (fst f), g f)) fs))).
  { intros g. rewrite map_map. cbn [fst].
    rewrite <- (map_map fst PStr). now apply nodup_map_PStr. }
  assert (Hsimple : hands_over (simple_schema_of name fs) (PStr name)
            (map (fun f => (fst f, (resolve simple_type_mapping (PStr (snd f)),
                                    Ellipsis))) fs)).
  { unfold simple_schema_of.
    pose proof (simple_branch_ok (PStr name)
                  (map (fun f => (PStr (fst f), PStr (snd f))) fs)) as H.
    rewrite map_map in H. apply H. repeat split.
    + apply Hkeys.
    + apply Hdistinct.
    + apply forallb_forall. intros v Hv.
      rewrite map_map in Hv. apply in_map_iff in Hv as [f [<- _]]. reflexivity. }
  assert (Hjson : hands_over (json_schema_of name fs) (PStr name)
            (map (fun f => (fst f, (resolve simple_type_mapping (PStr (snd f)),
                                    Ellipsis))) fs)).
  { unfold json_schema_of.
    pose proof (json_branch_ok
                  [ (PStr "title", PStr name);
                    (PStr "properties",
                     PDict (map (fun f => (PStr (fst f),
                                           PDict [(PStr "type",
                                                   PStr (json_name_of (snd f)))]))
                                fs));
                    (PStr "required", PList (map (fun f => PStr (fst f)) fs)) ]
                  (map (fun f => (PStr (fst f),
                                  PDict [(PStr "type",
                                          PStr (json_name_of (snd f)))])) fs)
                  (map (fun f => PStr (fst f)) fs)
                  eq_refl eq_refl eq_refl) as H.
    rewrite map_map in H.
    replace (map (fun f => (fst f, (resolve simple_type_mapping (PStr (snd f)),
                                    Ellipsis))) fs)
      with (map (fun x : string * string =>
                   as_keyword
                     (json_field (map (fun f => PStr (fst f)) fs)
                        (PStr (fst x),
                         PDict [(PStr "type", PStr (json_name_of (snd x)))])))
                fs).
    + apply H. repeat split.
      * apply Hkeys.
      * apply Hdistinct.
      * apply forallb_forall. intros v Hv.
        rewrite map_map in Hv. apply in_map_iff in Hv as [f [<- _]].
        reflexivity.
    + apply map_ext_in. intros f Hf.
      unfold as_keyword, json_field. cbn [fst snd str_of].
      rewrite Forall_forall in Htypes.
      replace (lookup_default [(PStr "type", PStr (json_name_of (snd f)))]
                 (PStr "type") PNone)
        with (PStr (json_name_of (snd f))) by reflexivity.
      change (lookup_default json_type_mapping
                (PStr (json_name_of (snd f))) TAny)
        with (resolve json_type_mapping (PStr (json_name_of (snd f)))).
      rewrite (resolve_json_name_of (snd f) (Htypes f Hf)).
      assert (Hmem : existsb (py_eq (PStr (fst f)))
                       (map (fun f0 : string * string => PStr (fst f0)) fs)
                     = true).
      { apply existsb_py_eq_str. apply in_map_iff. now exists f. }
      rewrite Hmem. reflexivity. }
  split; [exact Hsimple|]. split; [exact Hjson|].
  split; [rewrite map_map; reflexivity|]. split.
  - apply forallb_forall. intros x Hx.
    apply in_map_iff in Hx as [f [<- _]]. reflexivity.
  - intros P w. now rewrite (Hsimple P w), (Hjson P w).
Qed.


Lemma both_forms_agree_witness :
  exists m,
    parse_schema_to_pydantic_model Samples.strict
      (simple_schema_of "Person" [("name", "str"); ("age", "int")]) initial
    = (inr m, World 1 [])
    /\ parse_schema_to_pydantic_model Samples.strict
         (json_schema_of "Person" [("name", "str"); ("age", "int")]) initial
       = (inr m, World 1 []).
Proof.
  destruct (both_forms_agree "Person" [("name", "str"); ("age", "int")])
    as [kw [_ [_ [_ [_ Hsame]]]]].
  - repeat constructor; simpl; intuition discriminate.
  - repeat constructor; left; simpl; tauto.
  - eexists. rewrite <- (Hsame Samples.strict initial).
    split; reflexivity.
Defined.


(** ** The command: the paths the try block can take *)

(** The successful run: when every collaborator answers and the first
    choice has non-empty content, the command performs exactly five
    effects (open, resolve, client, one request, one print), prints that
    content unchanged, and returns normally; the other choices are
    ignored. *)
Theorem success_prints_first_content (P : pydantic) (E : env) (prompt schema model : string)
  (w : world) (text : string) (doc name : pyval)
  (kw : list (string * field_def)) (inst : model_instance) (c : client)
  (resp : response) (out : string) (others : list (option string)) :
  open_file E schema = inr text ->
  safe_load E text = inr doc ->
  translates_to P doc name kw ->
  get_model E model = inr inst ->
  supports_structured_output (model_id inst) = true ->
  get_client inst = inr c ->
  completions_parse c (model_id inst) [("user", prompt)]
                    (MkModel (next_class w) name kw) = inr resp ->
  choices resp = Some out :: others ->
  out <> "" ->
  structure P E prompt schema model w
  = (inr tt,
     World (S (next_class w))
           (trace w ++ [EvOpen schema; EvGetModel model; EvGetClient;
                        EvRequest (model_id inst) prompt
                                  (MkModel (next_class w) name kw);
                        EvPrint out])).
Proof.
  intros Hopen Hload Hdoc Hget Hsup Hclient Hresp Hchoices Hout.
  unfold_command. cbn [next_class trace].
  rewrite Hopen, Hload, Hdoc. cbn [next_class trace].
  rewrite Hget, Hsup. cbn [next_class trace].
  rewrite Hclient. cbn [next_class trace]. rewrite Hresp.
  unfold first_content. rewrite Hchoices.
  destruct out as [|a out']; [contradiction|].
  cbn [truthy content_text]. close_trace. reflexivity.
Qed.

Lemma success_prints_first_content_witness :
  structure Samples.strict (Samples.one_file "s.yaml" Samples.person (Some "{}"))
            "hi" "s.yaml" "gpt-4o" initial
  = (inr tt,
     World 1 [EvOpen "s.yaml"; EvGetModel "gpt-4o"; EvGetClient;
              EvRequest "gpt-4o" "hi"
                (MkModel 0 (PStr "Person")
                   [("name", (Tstr, Ellipsis)); ("age", (Tint, Ellipsis))]);
              EvPrint "{}"]).
Proof.
  refine (success_prints_first_content Samples.strict
            (Samples.one_file "s.yaml" Samples.person (Some "{}"))
            "hi" "s.yaml" "gpt-4o" initial "<text>" Samples.person
            (PStr "Person")
            [("name", (Tstr, Ellipsis)); ("age", (Tint, Ellipsis))]
            (ModelInstance "gpt-4o" (inr (Samples.answering (Some "{}"))))
            (Samples.answering (Some "{}")) (Response [Some "{}"]) "{}" []
            _ _ _ _ _ _ _ _ _).
  - reflexivity.
  - reflexivity.
  - intros w. reflexivity.
  - reflexivity.
  - reflexivity.
  - reflexivity.
  - reflexivity.
  - reflexivity.
  - discriminate.
Defined.

(** The command returns normally only after every step succeeded: the file
    opened and loaded, the schema translated, the model resolved to an
    identifier that passes the test of line 80, the client obtained, the
    request answered with a non-empty first content. *)
Theorem success_only_if_all_steps (P : pydantic) (E : env) (prompt schema model : string)
  (w : world) :
  fst (structure P E prompt schema model w) = inr tt ->
  exists text doc name kw inst c resp out,
    open_file E schema = inr text
    /\ safe_load E text = inr doc
    /\ translates_to P doc name kw
    /\ get_model E model = inr inst
    /\ supports_structured_output (model_id inst) = true
    /\ get_client inst = inr c
    /\ completions_parse c (model_id inst) [("user", prompt)]
                         (MkModel (next_class w) name kw) = inr resp
    /\ first_content resp = inr (Some out)
    /\ out <> "".
Proof.
  unfold_command. cbn [next_class trace].
  destruct (open_file E schema) as [e|text] eqn:Hopen; [discriminate|].
  destruct (safe_load E text) as [e|doc] eqn:Hload; [discriminate|].
  run_translator doc; [discriminate|].
  cbn [next_class trace].
  destruct (get_model E model) as [e|inst] eqn:Hget; [discriminate|].
  destruct (supports_structured_output (model_id inst)) eqn:Hsup;
    [|discriminate].
  cbn [next_class trace].
  destruct (get_client inst) as [e|c] eqn:Hclient; [discriminate|].
  cbn [next_class trace].
  destruct (completions_parse c _ _ _) as [e|resp] eqn:Hresp; [discriminate|].
  destruct (first_content resp) as [e|content] eqn:Hfirst; [discriminate|].
  destruct (truthy content) eqn:Ht; [|discriminate].
  intros _. apply truthy_text in Ht as [Hc Hne].
  exists text, doc, name, kw, inst, c, resp, (content_text content).
  rewrite <- Hc. repeat split; assumption.
Qed.

Lemma success_only_if_all_steps_witness :
  exists inst,
    get_model (Samples.one_file "s.yaml" Samples.person (Some "{}")) "gpt-4o"
    = inr inst
    /\ supports_structured_output (model_id inst) = true.
Proof.
  destruct (success_only_if_all_steps Samples.strict
              (Samples.one_file "s.yaml" Samples.person (Some "{}"))
              "hi" "s.yaml" "gpt-4o" initial eq_refl)
    as [text [doc [name [kw [inst [c [resp [out H]]]]]]]].
  exists inst. split; apply H.
Defined.

(** Whatever the collaborators do, one invocation opens the schema file
    exactly once, resolves the model at most once, asks for the client at
    most once, sends at most one request (no retry), writes exactly one
    line in total (to standard output or to standard error), and makes at
    most one class. *)
Theorem at_most_one_of_each_effect (P : pydantic) (E : env) (prompt schema model : string)
  (w : world) :
  exists evs,
    trace (snd (structure P E prompt schema model w)) = trace w ++ evs
    /\ List.length (filter is_open evs) = 1
    /\ List.length (filter is_get_model evs) <= 1
    /\ List.length (filter is_get_client evs) <= 1
    /\ List.length (filter is_request evs) <= 1
    /\ List.length (stdout_of evs) + List.length (stderr_of evs) = 1
    /\ next_class w <= next_class (snd (structure P E prompt schema model w))
       <= S (next_class w).
Proof.
  unfold_command. cbn [next_class trace].
  destruct (open_file E schema) as [e|text];
    [eexists; split; [close_trace; reflexivity | cbn; lia]|].
  destruct (safe_load E text) as [e|doc];
    [eexists; split; [close_trace; reflexivity | cbn; lia]|].
  run_translator doc;
    [eexists; split; [close_trace; reflexivity | cbn; lia]|].
  cbn [next_class trace].
  destruct (get_model E model) as [e|inst];
    [eexists; split; [close_trace; reflexivity | cbn; lia]|].
  destruct (supports_structured_output (model_id inst));
    [|eexists; split; [close_trace; reflexivity | cbn; lia]].
  cbn [next_class trace].
  destruct (get_client inst) as [e|c];
    [eexists; split; [close_trace; reflexivity | cbn; lia]|].
  cbn [next_class trace].
  destruct (completions_parse c _ _ _) as [e|resp];
    [eexists; split; [close_trace; reflexivity | cbn; lia]|].
  destruct (first_content resp) as [e|content];
    [eexists; split; [close_trace; reflexivity | cbn; lia]|].
  destruct (truthy content);
    eexists; (split; [close_trace; reflexivity | cbn; lia]).
Qed.

(** A schema problem is reported before the model is looked at: when the
    file opens but the YAML parser raises [e], or the parsed document makes
    the translator raise [e], the command writes [Error: <str(e)>] and
    aborts without resolving the model, whatever model was asked for, and
    no class has been made. *)
Theorem schema_error_reported_first (P : pydantic) (E : env) (prompt schema model : string)
  (w : world) (text : string) (e : exn) :
  open_file E schema = inr text ->
  safe_load E text = inl e
  \/ (exists doc, safe_load E text = inr doc
                  /\ fst (parse_schema_to_pydantic_model P doc initial) = inl e) ->
  structure P E prompt schema model w
  = (inl (Exn Abort ""),
     World (next_class w)
           (trace w ++ [EvOpen schema; EvEcho ("Error: " ++ exn_text e)])).
Proof.
  intros Hopen [Hload | [doc [Hload Hparse]]];
    unfold_command; cbn [next_class trace]; rewrite Hopen, Hload.
  - close_trace. reflexivity.
  - destruct (parse_world_independent P doc) as [[e' He] | [name [kw Hk]]].
    + rewrite He in Hparse. cbn [fst] in Hparse. injection Hparse as ->.
      rewrite He. close_trace. reflexivity.
    + rewrite Hk in Hparse. discriminate Hparse.
Qed.

Lemma schema_error_reported_first_witness :
  exists line,
    structure Samples.strict (Samples.one_file "s.yaml" Samples.only_properties (Some "{}"))
              "hi" "s.yaml" "gpt-4" initial
    = (inl (Exn Abort ""), World 0 [EvOpen "s.yaml"; EvEcho line]).
Proof.
  eexists.
  apply (schema_error_reported_first Samples.strict
           (Samples.one_file "s.yaml" Samples.only_properties (Some "{}"))
           "hi" "s.yaml" "gpt-4" initial "<text>"
           (Exn TypeError "unhashable type: 'dict'")).
  - reflexivity.
  - right. exists Samples.only_properties. split; reflexivity.
Defined.

(** When the registry does not know the model ([get_model] raises [e]),
    the error is reported after the schema was already translated (one
    class made); no client is asked for and no request is sent. *)
Theorem unknown_model_reported (P : pydantic) (E : env) (prompt schema model : string)
  (w : world) (text : string) (doc name : pyval)
  (kw : list (string * field_def)) (e : exn) :
  open_file E schema = inr text ->
  safe_load E text = inr doc ->
  translates_to P doc name kw ->
  get_model E model = inl e ->
  structure P E prompt schema model w
  = (inl (Exn Abort ""),
     World (S (next_class w))
           (trace w ++ [EvOpen schema; EvGetModel model;
                        EvEcho ("Error: " ++ exn_text e)])).
Proof.
  intros Hopen Hload Hdoc Hget.
  unfold_command. cbn [next_class trace].
  rewrite Hopen, Hload, Hdoc. cbn [next_class trace]. rewrite Hget.
  close_trace. reflexivity.
Qed.

Lemma unknown_model_reported_witness :
  structure Samples.strict (Env (fun _ => inr "<text>") (fun _ => inr Samples.person)
                 (fun name => inl (Exn (External "UnknownModelError") name)))
            "hi" "s.yaml" "nope" initial
  = (inl (Exn Abort ""),
     World 1 [EvOpen "s.yaml"; EvGetModel "nope"; EvEcho "Error: nope"]).
Proof.
  apply (unknown_model_reported Samples.strict
           (Env (fun _ => inr "<text>") (fun _ => inr Samples.person)
                (fun name => inl (Exn (External "UnknownModelError") name)))
           "hi" "s.yaml" "nope" initial "<text>" Samples.person
           (PStr "Person")
           [("name", (Tstr, Ellipsis)); ("age", (Tint, Ellipsis))]
           (Exn (External "UnknownModelError") "nope")).
  - reflexivity.
  - reflexivity.
  - intros w. reflexivity.
  - reflexivity.
Defined.

(** When the completion request raises [e] (network or provider error),
    that error is written as [Error: <str(e)>] and the command aborts; the
    request was sent once and is not retried, and nothing is printed. *)
Theorem request_failure_reported (P : pydantic) (E : env) (prompt schema model : string)
  (w : world) (text : string) (doc name : pyval)
  (kw : list (string * field_def)) (inst : model_instance) (c : client)
  (e : exn) :
  open_file E schema = inr text ->
  safe_load E text = inr doc ->
  translates_to P doc name kw ->
  get_model E model = inr inst ->
  supports_structured_output (model_id inst) = true ->
  get_client inst = inr c ->
  completions_parse c (model_id inst) [("user", prompt)]
                    (MkModel (next_class w) name kw) = inl e ->
  structure P E prompt schema model w
  = (inl (Exn Abort ""),
     World (S (next_class w))
           (trace w ++ [EvOpen schema; EvGetModel model; EvGetClient;
                        EvRequest (model_id inst) prompt
                                  (MkModel (next_class w) name kw);
                        EvEcho ("Error: " ++ exn_text e)])).
Proof.
  intros Hopen Hload Hdoc Hget Hsup Hclient Hresp.
  unfold_command. cbn [next_class trace].
  rewrite Hopen, Hload, Hdoc. cbn [next_class trace].
  rewrite Hget, Hsup. cbn [next_class trace].
  rewrite Hclient. cbn [next_class trace]. rewrite Hresp.
  close_trace. reflexivity.
Qed.

Lemma request_failure_reported_witness :
  structure Samples.strict (Env (fun _ => inr "<text>") (fun _ => inr Samples.person)
                 (fun name =>
                    inr (ModelInstance name
                           (inr (Client (fun _ _ _ =>
                                   inl (Exn (External "APIError") "timeout")))))))
            "hi" "s.yaml" "o1" initial
  = (inl (Exn Abort ""),
     World 1 [EvOpen "s.yaml"; EvGetModel "o1"; EvGetClient;
              EvRequest "o1" "hi"
                (MkModel 0 (PStr "Person")
                   [("name", (Tstr, Ellipsis)); ("age", (Tint, Ellipsis))]);
              EvEcho "Error: timeout"]).
Proof.
  refine (request_failure_reported Samples.strict
            (Env (fun _ => inr "<text>") (fun _ => inr Samples.person)
                 (fun name =>
                    inr (ModelInstance name
                           (inr (Client (fun _ _ _ =>
                                   inl (Exn (External "APIError") "timeout")))))))
            "hi" "s.yaml" "o1" initial "<text>" Samples.person (PStr "Person")
            [("name", (Tstr, Ellipsis)); ("age", (Tint, Ellipsis))]
            (ModelInstance "o1"
               (inr (Client (fun _ _ _ =>
                       inl (Exn (External "APIError") "timeout")))))
            (Client (fun _ _ _ => inl (Exn (External "APIError") "timeout")))
            (Exn (External "APIError") "timeout")
            _ _ _ _ _ _ _).
  - reflexivity.
  - reflexivity.
  - intros w. reflexivity.
  - reflexivity.
  - reflexivity.
  - reflexivity.
  - reflexivity.
Defined.

(** A response with no choices at all is not treated as an empty response:
    indexing [choices[0]] raises [IndexError] inside the body, and it is
    that error, not the usage error of line 92, that gets reported. *)
Theorem no_choices_is_index_error (P : pydantic) (E : env) (prompt schema model : string)
  (w : world) (text : string) (doc name : pyval)
  (kw : list (string * field_def)) (inst : model_instance) (c : client)
  (resp : response) :
  open_file E schema = inr text ->
  safe_load E text = inr doc ->
  translates_to P doc name kw ->
  get_model E model = inr inst ->
  supports_structured_output (model_id inst) = true ->
  get_client inst = inr c ->
  completions_parse c (model_id inst) [("user", prompt)]
                    (MkModel (next_class w) name kw) = inr resp ->
  choices resp = [] ->
  exists e,
    fst (structure_body P E prompt schema model w) = inl e
    /\ exn_kind_of e = IndexError
    /\ fst (structure P E prompt schema model w) = inl (Exn Abort "")
    /\ stdout_of (trace (snd (structure P E prompt schema model w)))
       = stdout_of (trace w)
    /\ stderr_of (trace (snd (structure P E prompt schema model w)))
       = stderr_of (trace w) ++ [("Error: " ++ exn_text e)%string].
Proof.
  intros Hopen Hload Hdoc Hget Hsup Hclient Hresp Hchoices.
  unfold_command. cbn [next_class trace].
  rewrite Hopen, Hload, Hdoc. cbn [next_class trace].
  rewrite Hget, Hsup. cbn [next_class trace].
  rewrite Hclient. cbn [next_class trace]. rewrite Hresp.
  unfold first_content. rewrite Hchoices.
  eexists. split; [reflexivity|]. split; [reflexivity|].
  split; [reflexivity|]. close_trace.
  rewrite stdout_of_app, stderr_of_app. cbn. rewrite app_nil_r.
  split; reflexivity.
Qed.

Lemma no_choices_is_index_error_witness :
  exists e,
    fst (structure_body Samples.strict
           (Env (fun _ => inr "<text>") (fun _ => inr Samples.person)
                (fun name =>
                   inr (ModelInstance name
                          (inr (Client (fun _ _ _ => inr (Response [])))))))
           "hi" "s.yaml" "o1" initial) = inl e
    /\ exn_kind_of e = IndexError.
Proof.
  destruct (no_choices_is_index_error Samples.strict
              (Env (fun _ => inr "<text>") (fun _ => inr Samples.person)
                   (fun name =>
                      inr (ModelInstance name
                             (inr (Client (fun _ _ _ => inr (Response [])))))))
              "hi" "s.yaml" "o1" initial "<text>" Samples.person (PStr "Person")
              [("name", (Tstr, Ellipsis)); ("age", (Tint, Ellipsis))]
              (ModelInstance "o1" (inr (Client (fun _ _ _ => inr (Response [])))))
              (Client (fun _ _ _ => inr (Response []))) (Response []))
    as [e [H1 [H2 _]]].
  - reflexivity.
  - reflexivity.
  - intros w. reflexivity.
  - reflexivity.
  - reflexivity.
  - reflexivity.
  - reflexivity.
  - reflexivity.
  - exists e. split; assumption.
Defined.

(** ** The support test of line 80 *)

Lemma str_app_assoc (a b c : string) : ((a ++ b) ++ c = a ++ (b ++ c))%string.
Proof. induction a as [|x a IH]; simpl; [reflexivity | now rewrite IH]. Qed.

Lemma prefix_iff (n h : string) :
  String.prefix n h = true <-> exists post, h = (n ++ post)%string.
Proof.
  revert h. induction n as [|a n IH]; intros h; destruct h as [|b h]; simpl.
  - split; [intros _; now exists "" | reflexivity].
  - split; [intros _; now exists (String b h) | reflexivity].
  - split; [discriminate | intros [post H]; discriminate H].
  - destruct (Ascii.ascii_dec a b) as [-> | Hne].
    + rewrite IH. split; intros [post H]; exists post; congruence.
    + split; [discriminate | intros [post H]].
      injection H as Hab _. exfalso. apply Hne. now symmetry.
Qed.

(** [str_contains n h] holds exactly when [n] occurs somewhere in [h]. *)
Lemma str_contains_iff (n h : string) :
  str_contains n h = true
  <-> exists pre post, h = (pre ++ n ++ post)%string.
Proof.
  induction h as [|a h IH]; cbn [str_contains].
  - rewrite orb_false_r, prefix_iff. split.
    + intros [post H]. exists "", post. exact H.
    + intros [pre [post H]]. destruct pre as [|b pre]; [|discriminate H].
      exists post. exact H.
  - rewrite orb_true_iff, prefix_iff, IH. split.
    + intros [[post H] | [pre [post H]]].
      * exists "", post. exact H.
      * exists (String a pre), post. simpl. now rewrite H.
    + intros [pre [post H]]. destruct pre as [|b pre].
      * left. exists post. exact H.
      * right. simpl in H. injection H as _ H. now exists pre, post.
Qed.

Lemma supports_of_contains (id : string) :
  str_contains "o1" id || str_contains "gpt-4o" id = true ->
  supports_structured_output id = true.
Proof.
  intros H. unfold supports_structured_output. rewrite H.
  destruct (String.eqb_spec id "gpt-4") as [-> | _]; [|reflexivity].
  vm_compute in H. discriminate H.
Qed.

(** The test accepts exactly the identifiers in which [o1] or [gpt-4o]
    occurs somewhere, at any position. *)
Theorem support_test_characterised (id : string) :
  supports_structured_output id = true
  <-> exists pre post,
        id = (pre ++ "o1" ++ post)%string
        \/ id = (pre ++ "gpt-4o" ++ post)%string.
Proof.
  split.
  - unfold supports_structured_output. intros H.
    apply andb_true_iff in H as [H _]. apply orb_true_iff in H as [H | H];
      apply str_contains_iff in H as [pre [post H]]; exists pre, post; tauto.
  - intros [pre [post [H | H]]]; apply supports_of_contains;
      apply orb_true_iff; [left | right];
      apply str_contains_iff; now exists pre, post.
Qed.

Lemma support_test_characterised_witness :
  supports_structured_output "o1-preview" = true.
Proof.
  apply (proj2 (support_test_characterised "o1-preview")).
  exists "", "-preview". left. reflexivity.
Defined.

(** The test is closed under extension: an accepted identifier stays
    accepted with any text put before or after it, so every variant or
    dated release of an accepted model is accepted too. *)
Theorem support_closed_under_extension (id before after : string) :
  supports_structured_output id = true ->
  supports_structured_output (before ++ id ++ after) = true.
Proof.
  unfold supports_structured_output at 1. intros H.
  apply andb_true_iff in H as [H _]. apply supports_of_contains.
  apply orb_true_iff in H as [H | H]; apply orb_true_iff; [left | right];
    apply str_contains_iff in H as [pre [post ->]];
    apply str_contains_iff; exists (before ++ pre)%string, (post ++ after)%string;
    now rewrite !str_app_assoc.
Qed.

Lemma support_closed_under_extension_witness :
  supports_structured_output "openai/gpt-4o-mini" = true.
Proof.
  apply (support_closed_under_extension "gpt-4o" "openai/" "-mini").
  reflexivity.
Defined.

(** ** The default model *)

(** Called without [-m], the command asks the registry for [gpt-4].  It can
    then succeed only if the registry resolves that name to a different
    identifier (one that passes the test); when [gpt-4] resolves to itself
    the call ends in an abort, for every prompt and schema, and no request
    is sent. *)
Theorem default_model_needs_alias (P : pydantic) (E : env) (prompt schema : string)
  (w : world) :
  (fst (structure_command P E prompt schema None w) = inr tt ->
   exists inst,
     get_model E "gpt-4" = inr inst
     /\ model_id inst <> "gpt-4"
     /\ supports_structured_output (model_id inst) = true)
  /\ (forall inst,
        get_model E "gpt-4" = inr inst -> model_id inst = "gpt-4" ->
        fst (structure_command P E prompt schema None w) = inl (Exn Abort "")
        /\ exists evs,
             trace (snd (structure_command P E prompt schema None w))
             = trace w ++ evs
             /\ filter is_request evs = []
             /\ stdout_of evs = []).
Proof.
  unfold structure_command. split.
  - unfold_command. cbn [next_class trace].
    destruct (open_file E schema) as [e|text]; [discriminate|].
    destruct (safe_load E text) as [e|doc]; [discriminate|].
    run_translator doc; [discriminate|].
    cbn [next_class trace].
    destruct (get_model E "gpt-4") as [e|inst]; [discriminate|].
    destruct (supports_structured_output (model_id inst)) eqn:Hsup;
      [|discriminate].
    intros _. exists inst. split; [reflexivity|]. split; [|exact Hsup].
    intros Heq. rewrite Heq in Hsup. discriminate Hsup.
  - intros inst Hget Hid.
    assert (Hsup : supports_structured_output (model_id inst) = false)
      by now rewrite Hid.
    assert (Hrun : exists n evs,
               structure P E prompt schema "gpt-4" w
               = (inl (Exn Abort ""), World n (trace w ++ evs))
               /\ filter is_request evs = [] /\ stdout_of evs = []).
    { unfold_command. cbn [next_class trace].
      destruct (open_file E schema) as [e|text];
        [do 2 eexists; split; [close_trace; reflexivity | split; reflexivity]|].
      destruct (safe_load E text) as [e|doc];
        [do 2 eexists; split; [close_trace; reflexivity | split; reflexivity]|].
      run_translator doc;
        [do 2 eexists; split; [close_trace; reflexivity | split; reflexivity]|].
      cbn [next_class trace]. rewrite Hget, Hsup.
      do 2 eexists. split; [close_trace; reflexivity | split; reflexivity]. }
    destruct Hrun as [n [evs [-> [Hreq Hout]]]].
    split; [reflexivity|]. exists evs. repeat split; assumption.
Qed.

Lemma default_model_needs_alias_witness :
  fst (structure_command Samples.strict
         (Samples.one_file "s.yaml" Samples.person (Some "{}"))
         "hi" "s.yaml" None initial) = inl (Exn Abort "").
Proof.
  apply (proj2 (default_model_needs_alias Samples.strict
                  (Samples.one_file "s.yaml" Samples.person (Some "{}"))
                  "hi" "s.yaml" initial)
               (ModelInstance "gpt-4" (inr (Samples.answering (Some "{}"))))).
  - reflexivity.
  - reflexivity.
Defined.
